(** * Retirement calculator: the projection engine of
      [src/components/RetirementCalculator.tsx]

    The engine is the closure [calculateRetirement] of the React component.
    Every quantity it handles is a JavaScript [number], that is an IEEE 754
    binary64 value, so the embedding computes on Rocq's primitive [float]s:
    [+], [-], [*], [/], [abs] and [>] are the hardware operations, with their
    NaN, infinity and signed zero behaviour.  The two library calls of the
    source, [Math.round] and [Math.pow], are modelled below. *)

From Stdlib Require Import String List ZArith Bool Lia QArith Floats.

Set Warnings "-inexact-float".

Local Open Scope float_scope.

(** ** JavaScript numbers *)

Module JS.

(** The signed numerator of a finite binary64 value [(-1)^s * m * 2^e]. *)
Definition signed (s : bool) (m : positive) : Z := cond_Zopp s (Zpos m).

(** [Number.isInteger]: finite and without fractional part. *)
Definition SFis_integer (x : spec_float) : bool :=
  match x with
  | S754_zero _ => true
  | S754_finite _ m e => (0 <=? e)%Z || (Zpos m mod 2 ^ (- e) =? 0)%Z
  | _ => false
  end.

Definition is_integer (x : float) : bool := SFis_integer (Prim2SF x).

(** The exact value of a finite number, as a rational. *)
Definition SF2Q (x : spec_float) : option Q :=
  match x with
  | S754_zero _ => Some 0%Q
  | S754_finite s m e =>
      Some (if (0 <=? e)%Z then inject_Z (signed s m * 2 ^ e)
            else Qmake (signed s m) (Z.to_pos (2 ^ (- e))))
  | _ => None
  end.

Definition to_Q (x : float) : option Q := SF2Q (Prim2SF x).

(** [Math.round] (ECMAScript 21.3.2.28): NaN, the infinities, the zeros and
    integral numbers are returned as they are; any other [x] goes to
    [floor (x + 1/2)] computed exactly, a half-way value therefore towards
    +infinity, and the result keeps the sign of [x] when it is zero
    ([Math.round(-0.2)] is [-0]).  A number with a non-negative binary
    exponent is integral; one with a negative exponent is below [2^52] in
    magnitude, so the rounded integer is representable. *)
Definition SFround (x : spec_float) : spec_float :=
  match x with
  | S754_finite s m e =>
      if (0 <=? e)%Z then x
      else
        let d := (2 ^ (- e))%Z in
        binary_normalize prec emax ((2 * signed s m + d) / (2 * d)) 0 s
  | _ => x
  end.

Definition Math_round (x : float) : float := SF2Prim (SFround (Prim2SF x)).

Definition Math_abs (x : float) : float := abs x.

(** NaN or an infinity. *)
Definition SFnonfinite (x : spec_float) : bool :=
  match x with
  | S754_nan | S754_infinity _ => true
  | _ => false
  end.

Definition nonfinite (x : float) : Prop := is_finite x = false.

Definition SFzero (x : spec_float) : bool :=
  match x with S754_zero _ => true | _ => false end.

(** The integer a number denotes, if it is integral. *)
Definition SF2Z (x : spec_float) : option Z :=
  match x with
  | S754_zero _ => Some 0%Z
  | S754_finite s m e =>
      if (0 <=? e)%Z then Some (signed s m * 2 ^ e)%Z
      else if (Zpos m mod 2 ^ (- e) =? 0)%Z then Some (signed s m / 2 ^ (- e))%Z
      else None
  | _ => None
  end.

Definition to_Z (x : float) : option Z := SF2Z (Prim2SF x).

(** [y] is the integer nearest to [x], a half-way [x] going up:
    [x - 1/2 < y <= x + 1/2] on the exact values. *)
Definition SFnearest_half_up (x y : spec_float) : Prop :=
  exists (q : Q) (n : Z),
    SF2Q x = Some q /\ SF2Z y = Some n /\
    (q - (1 # 2) < inject_Z n)%Q /\ (inject_Z n <= q + (1 # 2))%Q.

Definition nearest_half_up (x y : float) : Prop :=
  SFnearest_half_up (Prim2SF x) (Prim2SF y).

(** ** [Math.pow]

    ECMAScript fixes [Math.pow] (Number::exponentiate, 6.1.6.1.3) on NaN,
    zeros and infinities and leaves every other result
    "implementation-approximated".  The engine is therefore parameterised by
    the host's [Math.pow]; the only law the development relies on is step 2
    of Number::exponentiate: an exponent of [+0] or [-0] gives [1] whatever
    the base. *)
Class Runtime := {
  Math_pow : float -> float -> float;
  Math_pow_exponent_zero :
    forall base exponent, is_zero exponent = true -> Math_pow base exponent = 1
}.

(** *** A reference host

    One admissible [Math.pow], used to run the engine on concrete inputs:
    the special cases are those of Number::exponentiate, integral exponents
    are computed by repeated squaring and the others as [exp (y * ln x)]. *)

Definition is_odd_integer (x : float) : bool :=
  match to_Z x with Some n => Z.odd n | None => false end.

Fixpoint pow_pos (b : float) (n : positive) : float :=
  match n with
  | xH => b
  | xO n' => let h := pow_pos b n' in h * h
  | xI n' => let h := pow_pos b n' in b * (h * h)
  end.

Definition ln2 : float := 0x1.62e42fefa39efp-1.

(** [sum_{j < n} z^(2j+1) / (2j+1)], from the highest term down. *)
Fixpoint atanh_series (z2 : float) (n : nat) (k : float) : float :=
  match n with
  | O => 0
  | S n' => 1 / k + z2 * atanh_series z2 n' (k + 2)
  end.

Definition ln (x : float) : float :=
  let (f, k) := Z.frexp x in
  let z := (f - 1) / (f + 1) in
  let kf := if (k <? 0)%Z then - of_uint63 (Uint63.of_Z (- k))
            else of_uint63 (Uint63.of_Z k) in
  kf * ln2 + 2 * (z * atanh_series (z * z) 40 1).

Fixpoint exp_series (r : float) (n : nat) (k : float) : float :=
  match n with
  | O => 1
  | S n' => 1 + r / k * exp_series r n' (k + 1)
  end.

Definition exp (y : float) : float :=
  if y <? -800 then 0 else if 800 <? y then infinity else
  let kf := SF2Prim (SFround (Prim2SF (y / ln2))) in
  match SF2Z (Prim2SF kf) with
  | Some k => Z.ldexp (exp_series (y - kf * ln2) 24 1) k
  | None => nan
  end.

Definition pow_finite (base exponent : float) : float :=
  match to_Z exponent with
  | Some (Zpos n) => pow_pos base n
  | Some (Zneg n) => 1 / pow_pos base n
  | Some Z0 => 1
  | None => if base <? 0 then nan else exp (exponent * ln base)
  end.

Definition pow_reference (base exponent : float) : float :=
  if is_nan exponent then nan
  else if is_zero exponent then 1
  else if is_nan base then nan
  else if is_infinity base || is_zero base then
    let grows := if is_infinity base then 0 <? exponent else exponent <? 0 in
    let negative := get_sign base && is_odd_integer exponent in
    if grows then (if negative then neg_infinity else infinity)
    else (if negative then neg_zero else zero)
  else if is_infinity exponent then
    if abs base =? 1 then nan
    else if Bool.eqb (1 <? abs base) (0 <? exponent) then infinity else zero
  else pow_finite base exponent.

End JS.

Import JS.

(** ** Data model *)

Record CalculatorInputs := {
  currentAge : float;
  retirementAge : float;
  lifeExpectancy : float;
  currentSavings : float;
  monthlyContributions : float;
  expectedReturn : float;
  inflationRate : float;
  desiredIncome : float;
  includeStatePension : bool
}.

Definition DEFAULT_INPUTS : CalculatorInputs := {|
  currentAge := 30;
  retirementAge := 65;
  lifeExpectancy := 85;
  currentSavings := 50000;
  monthlyContributions := 500;
  expectedReturn := 7;
  inflationRate := 2;
  desiredIncome := 40000;
  includeStatePension := true
|}.

Definition STATE_PENSION_WEEKLY : float := 203.85.
Definition STATE_PENSION_ANNUAL : float := STATE_PENSION_WEEKLY * 52.

(** The object handed to [setResults]. *)
Record Results := {
  totalSavings : float;
  annualIncome : float;
  shortfall : float;
  isShortfall : bool
}.

(** The two [useState] cells of the component; [results] starts as [null]. *)
Record State := {
  inputs : CalculatorInputs;
  results : option Results
}.

Definition initialState : State :=
  {| inputs := DEFAULT_INPUTS; results := None |}.

Definition setResults (r : Results) (st : State) : State :=
  {| inputs := inputs st; results := Some r |}.

(** ** The engine *)

Section Engine.

Context {host : Runtime}.

(** [calculateRetirement], statement by statement.  It reads [inputs] from
    the component state and ends in [setResults]. *)
Definition calculateRetirement (st : State) : State :=
  let inputs := inputs st in
  let yearsToInvest := retirementAge inputs - currentAge inputs in
  let yearsInRetirement := lifeExpectancy inputs - retirementAge inputs in
  let realReturnRate :=
    (1 + expectedReturn inputs / 100) / (1 + inflationRate inputs / 100) - 1 in
  let futureSavings :=
    currentSavings inputs * Math_pow (1 + realReturnRate) yearsToInvest in
  let monthlyRate := realReturnRate / 12 in
  let months := yearsToInvest * 12 in
  let futureContributions :=
    monthlyContributions inputs *
    ((Math_pow (1 + monthlyRate) months - 1) / monthlyRate) in
  let totalSavings := futureSavings + futureContributions in
  let withdrawalRate := 0.04 in
  let annualWithdrawal := totalSavings * withdrawalRate in
  let statePensionAmount :=
    if includeStatePension inputs then STATE_PENSION_ANNUAL else 0 in
  let totalAnnualIncome := annualWithdrawal + statePensionAmount in
  let shortfall := desiredIncome inputs - totalAnnualIncome in
  setResults
    {| totalSavings := Math_round totalSavings;
       annualIncome := Math_round totalAnnualIncome;
       shortfall := Math_round (Math_abs shortfall);
       isShortfall := 0 <? shortfall |}
    st.

(** The intermediate constants of [calculateRetirement], as functions of the
    input record, for use in statements. *)
Definition yearsToInvest (i : CalculatorInputs) : float :=
  retirementAge i - currentAge i.

Definition yearsInRetirement (i : CalculatorInputs) : float :=
  lifeExpectancy i - retirementAge i.

Definition realReturnRate (i : CalculatorInputs) : float :=
  (1 + expectedReturn i / 100) / (1 + inflationRate i / 100) - 1.

Definition futureSavings (i : CalculatorInputs) : float :=
  currentSavings i * Math_pow (1 + realReturnRate i) (yearsToInvest i).

Definition monthlyRate (i : CalculatorInputs) : float := realReturnRate i / 12.

Definition months (i : CalculatorInputs) : float := yearsToInvest i * 12.

(** The factor the monthly contribution is multiplied by. *)
Definition annuityFactor (i : CalculatorInputs) : float :=
  (Math_pow (1 + monthlyRate i) (months i) - 1) / monthlyRate i.

Definition futureContributions (i : CalculatorInputs) : float :=
  monthlyContributions i * annuityFactor i.

Definition totalSavingsRaw (i : CalculatorInputs) : float :=
  futureSavings i + futureContributions i.

Definition withdrawalRate : float := 0.04.

Definition annualWithdrawal (i : CalculatorInputs) : float :=
  totalSavingsRaw i * withdrawalRate.

Definition statePensionAmount (i : CalculatorInputs) : float :=
  if includeStatePension i then STATE_PENSION_ANNUAL else 0.

Definition totalAnnualIncome (i : CalculatorInputs) : float :=
  annualWithdrawal i + statePensionAmount i.

(** The local [shortfall] of the source: the signed, unrounded gap. *)
Definition gap (i : CalculatorInputs) : float :=
  desiredIncome i - totalAnnualIncome i.

(** The record [calculateRetirement] stores. *)
Definition project (i : CalculatorInputs) : Results :=
  {| totalSavings := Math_round (totalSavingsRaw i);
     annualIncome := Math_round (totalAnnualIncome i);
     shortfall := Math_round (Math_abs (gap i));
     isShortfall := 0 <? gap i |}.

End Engine.

(** ** Input records used as examples *)

(** [{...prev, lifeExpectancy: v}], the update [handleInputChange] makes. *)
Definition withLifeExpectancy (v : float) (i : CalculatorInputs) : CalculatorInputs :=
  {| currentAge := currentAge i;
     retirementAge := retirementAge i;
     lifeExpectancy := v;
     currentSavings := currentSavings i;
     monthlyContributions := monthlyContributions i;
     expectedReturn := expectedReturn i;
     inflationRate := inflationRate i;
     desiredIncome := desiredIncome i;
     includeStatePension := includeStatePension i |}.

(** The defaults with the expected return lowered to the inflation rate. *)
Definition zeroRateInputs : CalculatorInputs := {|
  currentAge := 30; retirementAge := 65; lifeExpectancy := 85;
  currentSavings := 50000; monthlyContributions := 500;
  expectedReturn := 2; inflationRate := 2;
  desiredIncome := 40000; includeStatePension := true |}.

(** Nothing saved, nothing contributed, and a zero real rate. *)
Definition nothingSavedZeroRate : CalculatorInputs := {|
  currentAge := 30; retirementAge := 65; lifeExpectancy := 85;
  currentSavings := 0; monthlyContributions := 0;
  expectedReturn := 2; inflationRate := 2;
  desiredIncome := 40000; includeStatePension := true |}.

(** Nothing saved, nothing contributed, and a horizon of a million years. *)
Definition nothingSavedLongHorizon : CalculatorInputs := {|
  currentAge := 30; retirementAge := 1000000; lifeExpectancy := 1000020;
  currentSavings := 0; monthlyContributions := 0;
  expectedReturn := 7; inflationRate := 2;
  desiredIncome := 40000; includeStatePension := true |}.

(** Nothing saved, nothing contributed, default rates. *)
Definition nothingSaved (pension : bool) : CalculatorInputs := {|
  currentAge := 30; retirementAge := 65; lifeExpectancy := 85;
  currentSavings := 0; monthlyContributions := 0;
  expectedReturn := 7; inflationRate := 2;
  desiredIncome := 40000; includeStatePension := pension |}.

(** Desired income equal to the income of [nothingSaved true]. *)
Definition breakEven : CalculatorInputs := {|
  currentAge := 30; retirementAge := 65; lifeExpectancy := 85;
  currentSavings := 0; monthlyContributions := 0;
  expectedReturn := 7; inflationRate := 2;
  desiredIncome := STATE_PENSION_ANNUAL; includeStatePension := true |}.

(** Retirement age below the current age. *)
Definition negativeSpan : CalculatorInputs := {|
  currentAge := 65; retirementAge := 30; lifeExpectancy := 85;
  currentSavings := 50000; monthlyContributions := 500;
  expectedReturn := 7; inflationRate := 2;
  desiredIncome := 40000; includeStatePension := true |}.

(** Savings so large that their growth overflows binary64. *)
Definition hugeSavings : CalculatorInputs := {|
  currentAge := 30; retirementAge := 65; lifeExpectancy := 85;
  currentSavings := 1e308; monthlyContributions := 500;
  expectedReturn := 7; inflationRate := 2;
  desiredIncome := 40000; includeStatePension := true |}.

(** Retiring at once on the state pension, wanting about 30p more a year. *)
Definition nearMiss : CalculatorInputs := {|
  currentAge := 30; retirementAge := 30; lifeExpectancy := 85;
  currentSavings := 0; monthlyContributions := 0;
  expectedReturn := 7; inflationRate := 2;
  desiredIncome := 10600.5; includeStatePension := true |}.

(** ** The component around the engine *)

(** What [handleInputChange] assigns: [checked], a boolean, or
    [Number(value)], a number. *)
Inductive JSValue :=
  | JSBoolean (b : bool)
  | JSNumber (x : float).

(** ToNumber and ToBoolean (ECMAScript 7.1.4 and 7.1.2): what the arithmetic
    of the engine and its conditional operator make of a property. *)
Definition ToNumber (v : JSValue) : float :=
  match v with
  | JSNumber x => x
  | JSBoolean true => 1
  | JSBoolean false => 0
  end.

Definition ToBoolean (v : JSValue) : bool :=
  match v with
  | JSBoolean b => b
  | JSNumber x => negb (is_zero x || is_nan x)
  end.

(** The fields [handleInputChange] destructures from [e.target]; [value]
    holds the number [Number(value)] evaluates to, which can be any number,
    NaN included. *)
Record ChangeEvent := {
  name : string;
  value : float;
  type : string;
  checked : bool
}.

(** [{...prev, [name]: v}], as [calculateRetirement] reads the object
    afterwards: a property it uses in arithmetic is read through ToNumber,
    [includeStatePension] through ToBoolean, and a property under any other
    name is never read. *)
Definition assignProperty
    (prev : CalculatorInputs) (name : string) (v : JSValue) : CalculatorInputs :=
  if (name =? "currentAge")%string then
    {| currentAge := ToNumber v; retirementAge := retirementAge prev;
       lifeExpectancy := lifeExpectancy prev;
       currentSavings := currentSavings prev;
       monthlyContributions := monthlyContributions prev;
       expectedReturn := expectedReturn prev;
       inflationRate := inflationRate prev;
       desiredIncome := desiredIncome prev;
       includeStatePension := includeStatePension prev |}
  else if (name =? "retirementAge")%string then
    {| currentAge := currentAge prev; retirementAge := ToNumber v;
       lifeExpectancy := lifeExpectancy prev;
       currentSavings := currentSavings prev;
       monthlyContributions := monthlyContributions prev;
       expectedReturn := expectedReturn prev;
       inflationRate := inflationRate prev;
       desiredIncome := desiredIncome prev;
       includeStatePension := includeStatePension prev |}
  else if (name =? "lifeExpectancy")%string then
    {| currentAge := currentAge prev; retirementAge := retirementAge prev;
       lifeExpectancy := ToNumber v; currentSavings := currentSavings prev;
       monthlyContributions := monthlyContributions prev;
       expectedReturn := expectedReturn prev;
       inflationRate := inflationRate prev;
       desiredIncome := desiredIncome prev;
       includeStatePension := includeStatePension prev |}
  else if (name =? "currentSavings")%string then
    {| currentAge := currentAge prev; retirementAge := retirementAge prev;
       lifeExpectancy := lifeExpectancy prev; currentSavings := ToNumber v;
       monthlyContributions := monthlyContributions prev;
       expectedReturn := expectedReturn prev;
       inflationRate := inflationRate prev;
       desiredIncome := desiredIncome prev;
       includeStatePension := includeStatePension prev |}
  else if (name =? "monthlyContributions")%string then
    {| currentAge := currentAge prev; retirementAge := retirementAge prev;
       lifeExpectancy := lifeExpectancy prev;
       currentSavings := currentSavings prev;
       monthlyContributions := ToNumber v;
       expectedReturn := expectedReturn prev;
       inflationRate := inflationRate prev;
       desiredIncome := desiredIncome prev;
       includeStatePension := includeStatePension prev |}
  else if (name =? "expectedReturn")%string then
    {| currentAge := currentAge prev; retirementAge := retirementAge prev;
       lifeExpectancy := lifeExpectancy prev;
       currentSavings := currentSavings prev;
       monthlyContributions := monthlyContributions prev;
       expectedReturn := ToNumber v; inflationRate := inflationRate prev;
       desiredIncome := desiredIncome prev;
       includeStatePension := includeStatePension prev |}
  else if (name =? "inflationRate")%string then
    {| currentAge := currentAge prev; retirementAge := retirementAge prev;
       lifeExpectancy := lifeExpectancy prev;
       currentSavings := currentSavings prev;
       monthlyContributions := monthlyContributions prev;
       expectedReturn := expectedReturn prev; inflationRate := ToNumber v;
       desiredIncome := desiredIncome prev;
       includeStatePension := includeStatePension prev |}
  else if (name =? "desiredIncome")%string then
    {| currentAge := currentAge prev; retirementAge := retirementAge prev;
       lifeExpectancy := lifeExpectancy prev;
       currentSavings := currentSavings prev;
       monthlyContributions := monthlyContributions prev;
       expectedReturn := expectedReturn prev;
       inflationRate := inflationRate prev; desiredIncome := ToNumber v;
       includeStatePension := includeStatePension prev |}
  else if (name =? "includeStatePension")%string then
    {| currentAge := currentAge prev; retirementAge := retirementAge prev;
       lifeExpectancy := lifeExpectancy prev;
       currentSavings := currentSavings prev;
       monthlyContributions := monthlyContributions prev;
       expectedReturn := expectedReturn prev;
       inflationRate := inflationRate prev;
       desiredIncome := desiredIncome prev;
       includeStatePension := ToBoolean v |}
  else prev.

Definition setInputs
    (update : CalculatorInputs -> CalculatorInputs) (st : State) : State :=
  {| inputs := update (inputs st); results := results st |}.

Definition handleInputChange (e : ChangeEvent) (st : State) : State :=
  setInputs
    (fun prev =>
       assignProperty prev (name e)
         (if (type e =? "checkbox")%string then JSBoolean (checked e)
          else JSNumber (value e)))
    st.

(** The value an event assigns. *)
Definition assigned (e : ChangeEvent) : JSValue :=
  if (type e =? "checkbox")%string then JSBoolean (checked e)
  else JSNumber (value e).

(** The value assigned by the last event of the sequence with name [k]. *)
Fixpoint lastAssigned (k : string) (events : list ChangeEvent) : option JSValue :=
  match events with
  | nil => None
  | e :: rest =>
      match lastAssigned k rest with
      | Some v => Some v
      | None => if (name e =? k)%string then Some (assigned e) else None
      end
  end.

(** [inputs[k]] for the eight properties that hold numbers. *)
Definition numberField (k : string) (i : CalculatorInputs) : option float :=
  if (k =? "currentAge")%string then Some (currentAge i)
  else if (k =? "retirementAge")%string then Some (retirementAge i)
  else if (k =? "lifeExpectancy")%string then Some (lifeExpectancy i)
  else if (k =? "currentSavings")%string then Some (currentSavings i)
  else if (k =? "monthlyContributions")%string then Some (monthlyContributions i)
  else if (k =? "expectedReturn")%string then Some (expectedReturn i)
  else if (k =? "inflationRate")%string then Some (inflationRate i)
  else if (k =? "desiredIncome")%string then Some (desiredIncome i)
  else None.

(** The results panel (the JSX under [results && ...]): its caption and
    classes for the gap, and whether the suggestions box is rendered
    ([results.isShortfall && ...]). *)
Definition showsPanel (st : State) : bool :=
  match results st with Some _ => true | None => false end.

Definition gapCaption (r : Results) : string :=
  if isShortfall r then "Annual Shortfall" else "Annual Surplus".

Definition gapBoxClass (r : Results) : string :=
  "bg-white p-4 rounded-lg border "
  ++ (if isShortfall r then "border-red-200" else "border-green-200").

Definition gapAmountClass (r : Results) : string :=
  "text-2xl font-bold "
  ++ (if isShortfall r then "text-red-600" else "text-green-600").

Definition showsSuggestions (r : Results) : bool := isShortfall r.

Section Component.

Context {host : Runtime}.

(** [useEffect(() => calculateRetirement(), [inputs])]: the effect runs after
    the first render and after every render in which [inputs] is a new
    object, which [setInputs] with a spread always makes it. *)
Definition mount : State := calculateRetirement initialState.

Definition dispatch (e : ChangeEvent) (st : State) : State :=
  calculateRetirement (handleInputChange e st).

(** The component after a sequence of change events. *)
Definition run (events : list ChangeEvent) (st : State) : State :=
  fold_left (fun s e => dispatch e s) events st.

(** After the effect has run the stored results are those of the stored
    inputs. *)
Definition inSync (st : State) : Prop :=
  results st = Some (project (inputs st)).

End Component.

(** Change events and input records used as examples. *)

(** Typing 20 into the retirement age of the initial form. *)
Definition retireAt20 : ChangeEvent :=
  {| name := "retirementAge"; value := 20; type := "number"; checked := false |}.

Definition untickPension : ChangeEvent :=
  {| name := "includeStatePension"; value := nan;
     type := "checkbox"; checked := false |}.

Definition desire50000 : ChangeEvent :=
  {| name := "desiredIncome"; value := 50000; type := "number"; checked := false |}.

Definition retireAt70 : ChangeEvent :=
  {| name := "retirementAge"; value := 70; type := "number"; checked := false |}.

Definition liveTo120 : ChangeEvent :=
  {| name := "lifeExpectancy"; value := 120; type := "number"; checked := false |}.

(** The defaults, retiring at the current age of 30. *)
Definition retireNow : CalculatorInputs := {|
  currentAge := 30; retirementAge := 30; lifeExpectancy := 85;
  currentSavings := 50000; monthlyContributions := 500;
  expectedReturn := 7; inflationRate := 2;
  desiredIncome := 40000; includeStatePension := true |}.

(** An input whose expected return is not a number. *)
Definition returnNotANumber : CalculatorInputs := {|
  currentAge := 30; retirementAge := 65; lifeExpectancy := 85;
  currentSavings := 50000; monthlyContributions := 500;
  expectedReturn := nan; inflationRate := 2;
  desiredIncome := 40000; includeStatePension := true |}.

(** NaN, or a number whose sign bit is clear. *)
Definition SFunsigned (x : spec_float) : bool :=
  match x with
  | S754_zero s | S754_infinity s | S754_finite s _ _ => negb s
  | S754_nan => true
  end.

(** * Facts about binary64 numbers *)

Local Open Scope Z_scope.

(** ** Classification of numbers through [Prim2SF] *)

Lemma Prim2SF_zero : Prim2SF zero = S754_zero false.
Proof. reflexivity. Qed.

Lemma Prim2SF_infinity : Prim2SF infinity = S754_infinity false.
Proof. reflexivity. Qed.

Lemma is_zero_SF (x : float) :
  is_zero x = true <-> exists s, Prim2SF x = S754_zero s.
Proof.
  unfold is_zero. rewrite eqb_spec, Prim2SF_zero.
  destruct (Prim2SF x) as [s|s| |s m e]; cbn; split;
    try discriminate; try (intros [s' H]; discriminate); eauto.
  - destruct s; discriminate.
  - destruct s; discriminate.
Qed.

Lemma is_nan_SF (x : float) :
  is_nan x = true <-> Prim2SF x = S754_nan.
Proof.
  unfold is_nan. rewrite eqb_spec.
  destruct (Prim2SF x) as [s|s| |s m e]; cbn; split; try discriminate; auto.
  - destruct s; discriminate.
  - unfold SFeqb, SFcompare.
    destruct s; rewrite Z.compare_refl, Pos.compare_cont_refl; discriminate.
Qed.

(** The reference host as a [Runtime]. *)
Lemma pow_reference_exponent_zero (base exponent : float) :
  is_zero exponent = true -> pow_reference base exponent = 1%float.
Proof.
  intros Hz. unfold pow_reference. rewrite Hz.
  destruct (is_nan exponent) eqn:Hn; [|reflexivity].
  apply is_nan_SF in Hn. apply is_zero_SF in Hz as [s Hz]. congruence.
Qed.

Definition referenceHost : Runtime :=
  {| Math_pow := pow_reference;
     Math_pow_exponent_zero := pow_reference_exponent_zero |}.

(** ** Integers and rounding *)

Lemma digits2_pos_size (p : positive) : digits2_pos p = Pos.size p.
Proof. induction p; simpl; congruence. Qed.

Lemma Zdigits2_log2 (p : positive) : Zpos (digits2_pos p) = Z.log2 (Zpos p) + 1.
Proof.
  rewrite digits2_pos_size. destruct p; simpl; lia.
Qed.

Lemma Zpos_iter_xO (p k : positive) : Zpos (Pos.iter xO p k) = Zpos p * 2 ^ Zpos k.
Proof.
  rewrite <- Z.shiftl_mul_pow2 by lia. simpl.
  apply (Pos.iter_swap_gen _ _ Zpos xO (Z.mul 2)). reflexivity.
Qed.

(** A canonical mantissa is rounded to itself. *)
Lemma binary_round_aux_canonical (s : bool) (m : positive) (e : Z) :
  canonical_mantissa prec emax m e = true -> (e <=? emax - prec) = true ->
  binary_round_aux prec emax s (Zpos m) e loc_Exact = S754_finite s m e.
Proof.
  intros Hc He. unfold canonical_mantissa in Hc. apply Z.eqb_eq in Hc.
  unfold binary_round_aux, shr_fexp. cbn [Zdigits2 shr_record_of_loc].
  rewrite Hc, Z.sub_diag. cbn [shr shr_m loc_of_shr_record round_nearest_even Zdigits2].
  rewrite Hc, Z.sub_diag. cbn [shr shr_m]. rewrite He. reflexivity.
Qed.

Lemma fexp_unfold (x : Z) : fexp prec emax x = Z.max (x - 53) (-1074).
Proof. reflexivity. Qed.

Lemma digits2_pos_bound (p : positive) (n : Z) :
  0 <= n -> Zpos p < 2 ^ n -> Zpos (digits2_pos p) <= n.
Proof.
  intros Hn Hp. rewrite Zdigits2_log2.
  apply Z.log2_lt_pow2 in Hp; lia.
Qed.

Lemma digits2_pos_iter_xO (p k : positive) :
  Zpos (digits2_pos (Pos.iter xO p k)) = Zpos (digits2_pos p) + Zpos k.
Proof.
  rewrite !Zdigits2_log2, Zpos_iter_xO, Z.log2_mul_pow2; lia.
Qed.

(** An integer below [2^53] in magnitude is representable: normalising it
    yields a valid number that denotes it. *)
Lemma binary_round_integer (s : bool) (p : positive) :
  Zpos p < 2 ^ 53 ->
  valid_binary (binary_round prec emax s p 0) = true /\
  SF2Z (binary_round prec emax s p 0) = Some (signed s p).
Proof.
  intros Hp. pose proof (digits2_pos_bound p 53 ltac:(lia) Hp) as Hd.
  unfold binary_round. rewrite Z.add_0_r, fexp_unfold.
  rewrite Z.max_l by lia.
  unfold shl_align. rewrite Z.sub_0_r.
  destruct (Zpos (digits2_pos p) - 53) as [|k|k] eqn:Hk; try lia.
  - rewrite binary_round_aux_canonical.
    + split.
      * cbn [valid_binary]. unfold bounded, canonical_mantissa.
        rewrite Z.add_0_r, fexp_unfold, Z.max_l by lia.
        rewrite Hk. reflexivity.
      * cbn [SF2Z]. cbn [Z.leb Z.compare]. f_equal. lia.
    + unfold canonical_mantissa.
      rewrite Z.add_0_r, fexp_unfold, Z.max_l by lia. rewrite Hk. reflexivity.
    + reflexivity.
  - assert (Hc : canonical_mantissa prec emax (Pos.iter xO p k) (Zneg k) = true).
    { unfold canonical_mantissa. rewrite digits2_pos_iter_xO, fexp_unfold.
      apply Z.eqb_eq. lia. }
    assert (He : (Zneg k <=? emax - prec) = true) by reflexivity.
    rewrite binary_round_aux_canonical by assumption.
    split.
    + cbn [valid_binary]. unfold bounded. rewrite Hc, He. reflexivity.
    + cbn [SF2Z]. cbn [Z.leb Z.compare Z.opp].
      rewrite Zpos_iter_xO, Z.mod_mul by lia. cbn [Z.eqb].
      f_equal. unfold signed, cond_Zopp. destruct s.
      * rewrite Zpos_iter_xO, <- Z.mul_opp_l, Z.div_mul; lia.
      * rewrite Zpos_iter_xO, Z.div_mul; lia.
Qed.

Lemma binary_normalize_integer (n : Z) (s : bool) :
  Z.abs n < 2 ^ 53 ->
  valid_binary (binary_normalize prec emax n 0 s) = true /\
  SF2Z (binary_normalize prec emax n 0 s) = Some n.
Proof.
  intros Hn. destruct n as [|p|p]; cbn [binary_normalize].
  - split; reflexivity.
  - apply (binary_round_integer false p). lia.
  - apply (binary_round_integer true p). lia.
Qed.

Lemma valid_mantissa_bound (s : bool) (m : positive) (e : Z) :
  valid_binary (S754_finite s m e) = true -> Zpos m < 2 ^ 53.
Proof.
  cbn [valid_binary]. unfold bounded, canonical_mantissa.
  rewrite fexp_unfold. intros H. apply andb_prop in H as [H _].
  apply Z.eqb_eq in H.
  apply Z.log2_lt_pow2; [lia|]. pose proof (Zdigits2_log2 m). lia.
Qed.

Lemma signed_abs (s : bool) (m : positive) : Z.abs (signed s m) = Zpos m.
Proof. destruct s; reflexivity. Qed.

(** [floor (n/d + 1/2)] for a numerator below [2^53] and a denominator [>= 2]. *)
Lemma round_quotient_bounds (n d : Z) :
  Z.abs n < 2 ^ 53 -> 2 <= d ->
  let r := (2 * n + d) / (2 * d) in
  Z.abs r < 2 ^ 53 /\ 2 * d * r <= 2 * n + d < 2 * d * (r + 1).
Proof.
  intros Hn Hd r.
  assert (Hr : 2 * d * r <= 2 * n + d < 2 * d * (r + 1)).
  { subst r. split.
    - apply Z.mul_div_le. lia.
    - rewrite Z.mul_add_distr_l, Z.mul_1_r.
      pose proof (Z.mul_succ_div_gt (2 * n + d) (2 * d) ltac:(lia)). lia. }
  split; [|exact Hr].
  assert (r < 2 ^ 53).
  { subst r. apply Z.div_lt_upper_bound; lia. }
  assert (- 2 ^ 53 < r).
  { assert (- 2 ^ 53 + 1 <= r); [|lia].
    subst r. apply Z.div_le_lower_bound; lia. }
  lia.
Qed.

Lemma SFround_valid (x : spec_float) :
  valid_binary x = true -> valid_binary (SFround x) = true.
Proof.
  intros Hv. destruct x as [s|s| |s m e]; try assumption.
  cbn [SFround]. destruct (0 <=? e) eqn:He; [assumption|].
  apply Z.leb_gt in He.
  apply binary_normalize_integer.
  apply round_quotient_bounds.
  - rewrite signed_abs. eapply valid_mantissa_bound; eassumption.
  - change 2 with (2 ^ 1). apply Z.pow_le_mono_r; lia.
Qed.

Lemma Prim2SF_Math_round (x : float) :
  Prim2SF (Math_round x) = SFround (Prim2SF x).
Proof.
  unfold Math_round. apply Prim2SF_SF2Prim, SFround_valid, Prim2SF_valid.
Qed.

Lemma SFround_nearest (x : spec_float) :
  valid_binary x = true -> SF2Q x <> None ->
  SFnearest_half_up x (SFround x).
Proof.
  intros Hv Hf. destruct x as [s|s| |s m e]; try (exfalso; apply Hf; reflexivity).
  - exists 0%Q, 0. repeat split; discriminate.
  - unfold SFnearest_half_up. cbn [SFround SF2Q SF2Z]. destruct (0 <=? e) eqn:He.
    + exists (inject_Z (signed s m * 2 ^ e)), (signed s m * 2 ^ e).
      cbn [SF2Z]. rewrite He. split; [reflexivity|]. split; [reflexivity|].
      unfold Qlt, Qle, Qminus, Qplus, Qopp, inject_Z. cbn [Qnum Qden]. lia.
    + apply Z.leb_gt in He.
      assert (Hd : 2 <= 2 ^ (- e)).
      { change 2 with (2 ^ 1) at 1. apply Z.pow_le_mono_r; lia. }
      pose proof (valid_mantissa_bound s m e Hv) as Hm.
      rewrite <- (signed_abs s m) in Hm.
      destruct (round_quotient_bounds (signed s m) (2 ^ (- e)) Hm Hd) as [Hr Hb].
      destruct (binary_normalize_integer _ s Hr) as [_ Hz].
      eexists _, _. split; [reflexivity|]. split; [exact Hz|].
      unfold Qlt, Qle, Qminus, Qplus, Qopp, inject_Z. cbn [Qnum Qden].
      rewrite !Pos2Z.inj_mul, Z2Pos.id by lia. lia.
Qed.

Lemma SFcompare_finite_refl (s : bool) (m : positive) (e : Z) :
  SFcompare (S754_finite s m e) (S754_finite s m e) = Some Eq.
Proof.
  cbn [SFcompare]. rewrite Z.compare_refl.
  change (Pos.compare_cont Eq m m) with (Pos.compare m m).
  rewrite Pos.compare_refl. destruct s; reflexivity.
Qed.

Lemma is_finite_SF (x : float) :
  is_finite x = negb (SFnonfinite (Prim2SF x)).
Proof.
  unfold is_finite, is_nan, is_infinity.
  rewrite !eqb_spec, abs_spec, Prim2SF_infinity.
  destruct (Prim2SF x) as [s|s| |s m e]; cbn [SFabs SFnonfinite].
  - reflexivity.
  - destruct s; reflexivity.
  - reflexivity.
  - unfold SFeqb at 1. rewrite SFcompare_finite_refl. reflexivity.
Qed.

Lemma SFdiv_by_zero (x : spec_float) (s : bool) :
  SFnonfinite (SF64div x (S754_zero s)) = true.
Proof. destruct x; reflexivity. Qed.

Lemma SFmul_nonfinite_r (x y : spec_float) :
  SFnonfinite y = true -> SFnonfinite (SF64mul x y) = true.
Proof. destruct x, y; try discriminate; reflexivity. Qed.

Lemma SFmul_nonfinite_l (x y : spec_float) :
  SFnonfinite x = true -> SFnonfinite (SF64mul x y) = true.
Proof. destruct x, y; try discriminate; reflexivity. Qed.

Lemma SFadd_nonfinite_r (x y : spec_float) :
  SFnonfinite y = true -> SFnonfinite (SF64add x y) = true.
Proof.
  destruct x as [s|s| |s m e], y as [t|t| |t n f]; try discriminate;
    try reflexivity.
  intros _. destruct s, t; reflexivity.
Qed.

Lemma SFadd_nonfinite_l (x y : spec_float) :
  SFnonfinite x = true -> SFnonfinite (SF64add x y) = true.
Proof.
  destruct x as [s|s| |s m e], y as [t|t| |t n f]; try discriminate;
    try reflexivity.
  intros _. destruct s, t; reflexivity.
Qed.

Lemma SFsub_nonfinite_r (x y : spec_float) :
  SFnonfinite y = true -> SFnonfinite (SF64sub x y) = true.
Proof.
  destruct x as [s|s| |s m e], y as [t|t| |t n f]; try discriminate;
    try reflexivity.
  intros _. destruct s, t; reflexivity.
Qed.

Lemma SFabs_nonfinite (x : spec_float) :
  SFnonfinite (SFabs x) = SFnonfinite x.
Proof. destruct x; reflexivity. Qed.

Lemma SFround_nonfinite (x : spec_float) :
  SFnonfinite x = true -> SFround x = x.
Proof. destruct x; try discriminate; reflexivity. Qed.

Lemma nonfinite_SF (x : float) :
  nonfinite x <-> SFnonfinite (Prim2SF x) = true.
Proof.
  unfold nonfinite. rewrite is_finite_SF.
  destruct (SFnonfinite (Prim2SF x)); cbn; split; congruence.
Qed.

Lemma div_by_zero_nonfinite (x y : float) :
  is_zero y = true -> nonfinite (x / y).
Proof.
  intros [s Hs]%is_zero_SF. apply nonfinite_SF.
  rewrite div_spec, Hs. apply SFdiv_by_zero.
Qed.

Lemma mul_nonfinite_r (x y : float) : nonfinite y -> nonfinite (x * y).
Proof.
  rewrite !nonfinite_SF, mul_spec. apply SFmul_nonfinite_r.
Qed.

Lemma mul_nonfinite_l (x y : float) : nonfinite x -> nonfinite (x * y).
Proof.
  rewrite !nonfinite_SF, mul_spec. apply SFmul_nonfinite_l.
Qed.

Lemma add_nonfinite_r (x y : float) : nonfinite y -> nonfinite (x + y).
Proof.
  rewrite !nonfinite_SF, add_spec. apply SFadd_nonfinite_r.
Qed.

Lemma add_nonfinite_l (x y : float) : nonfinite x -> nonfinite (x + y).
Proof.
  rewrite !nonfinite_SF, add_spec. apply SFadd_nonfinite_l.
Qed.

Lemma sub_nonfinite_r (x y : float) : nonfinite y -> nonfinite (x - y).
Proof.
  rewrite !nonfinite_SF, sub_spec. apply SFsub_nonfinite_r.
Qed.

Lemma abs_nonfinite (x : float) : nonfinite x -> nonfinite (Math_abs x).
Proof.
  unfold Math_abs. rewrite !nonfinite_SF, abs_spec, SFabs_nonfinite. auto.
Qed.

Lemma Math_round_nonfinite (x : float) : nonfinite x -> Math_round x = x.
Proof.
  intros H%nonfinite_SF. unfold Math_round.
  rewrite SFround_nonfinite by assumption. apply SF2Prim_Prim2SF.
Qed.

(** *** Zeros *)

Lemma is_zero_SFzero (x : float) : is_zero x = SFzero (Prim2SF x).
Proof.
  destruct (is_zero x) eqn:H.
  - apply is_zero_SF in H as [s ->]. reflexivity.
  - destruct (Prim2SF x) as [s|s| |s m e] eqn:Hx; try reflexivity.
    assert (is_zero x = true) by (apply is_zero_SF; eauto). congruence.
Qed.

Lemma SFmul_zero_l (x y : spec_float) :
  SFzero x = true -> SFnonfinite y = false -> SFzero (SF64mul x y) = true.
Proof. destruct x, y; try discriminate; reflexivity. Qed.

Lemma SFadd_zero_zero (x y : spec_float) :
  SFzero x = true -> SFzero y = true -> SFzero (SF64add x y) = true.
Proof.
  destruct x as [s|s| |s m e], y as [t|t| |t n f]; try discriminate.
  destruct s, t; reflexivity.
Qed.

(** [w + y] is [y] when [w] is a zero, unless [y] is [-0]. *)
Lemma SFadd_zero_l (x y : spec_float) :
  SFzero x = true -> y <> S754_zero true -> SF64add x y = y.
Proof.
  destruct x as [s|s| |s m e], y as [t|t| |t n f]; try discriminate;
    try reflexivity.
  destruct s, t; try reflexivity; congruence.
Qed.

Lemma SFeqb_finite_eq (s t : bool) (m n : positive) (e f : Z) :
  SFeqb (S754_finite s m e) (S754_finite t n f) = true ->
  s = t /\ m = n /\ e = f.
Proof.
  unfold SFeqb. cbn [SFcompare].
  change (Pos.compare_cont Eq m n) with (Pos.compare m n).
  destruct s, t; try discriminate;
    destruct (Z.compare_spec e f); try discriminate;
    destruct (Pos.compare_spec m n); try discriminate; auto.
Qed.

Lemma SFsub_diag (s : bool) (m : positive) (e : Z) :
  SF64sub (S754_finite s m e) (S754_finite s m e) = S754_zero false.
Proof.
  unfold SF64sub. cbn [SFsub]. rewrite Z.sub_diag. reflexivity.
Qed.

(** Equal finite numbers differ by a zero. *)
Lemma SFsub_eqb_zero (x y : spec_float) :
  SFeqb x y = true -> SFnonfinite x = false -> SFzero (SF64sub x y) = true.
Proof.
  destruct x as [s|s| |s m e], y as [t|t| |t n f]; intros He Hf;
    try discriminate He; try discriminate Hf;
    try (destruct t; discriminate He); try (destruct s; discriminate He).
  - destruct s, t; reflexivity.
  - apply SFeqb_finite_eq in He as (-> & -> & ->).
    rewrite SFsub_diag. reflexivity.
Qed.

Lemma SFround_abs_zero (x : spec_float) :
  SFzero x = true -> SFround (SFabs x) = S754_zero false.
Proof. destruct x; try discriminate; reflexivity. Qed.

Lemma SFltb_zero_false (x : spec_float) :
  SFzero x = true -> SFltb (S754_zero false) x = false.
Proof. destruct x; try discriminate; reflexivity. Qed.

Lemma Prim2SF_half : Prim2SF 0.5 = S754_finite false 4503599627370496 (-53).
Proof. reflexivity. Qed.

(** A number strictly between 0 and 1/2 rounds to [+0]. *)
Lemma SFround_small (x : spec_float) :
  valid_binary x = true ->
  SFltb (S754_zero false) x = true ->
  SFltb x (S754_finite false 4503599627370496 (-53)) = true ->
  SFabs x = x /\ SFround x = S754_zero false.
Proof.
  intros Hv H0 Hh. destruct x as [s|s| |s m e]; try discriminate H0.
  - destruct s; [discriminate H0|]. cbv in Hh. discriminate Hh.
  - destruct s; [discriminate H0|]. split; [reflexivity|].
    pose proof (valid_mantissa_bound _ _ _ Hv) as Hm.
    unfold SFltb in Hh. cbn [SFcompare] in Hh.
    rewrite Pos.compare_cont_spec in Hh. cbn [Pos.switch_Eq] in Hh.
    assert (He : e < -53 \/ e = -53 /\ Zpos m < 4503599627370496).
    { destruct (e ?= -53) eqn:E.
      - apply Z.compare_eq_iff in E.
        destruct (m ?= 4503599627370496)%positive eqn:F; try discriminate Hh.
        apply Pos.compare_lt_iff, Pos2Z.pos_lt_pos in F. right. split; assumption.
      - left. exact E.
      - discriminate Hh. }
    cbn [SFround]. replace (0 <=? e) with false by (symmetry; apply Z.leb_gt; lia).
    unfold signed, cond_Zopp.
    assert (Hd : 2 * Zpos m < 2 ^ (- e)).
    { destruct He as [He|[-> He]].
      - assert (2 ^ 54 <= 2 ^ (- e)) by (apply Z.pow_le_mono_r; lia). lia.
      - assert (Hp : 2 ^ (- -53) = 9007199254740992) by reflexivity.
        rewrite Hp. lia. }
    rewrite Z.div_small by lia. reflexivity.
Qed.

Lemma Prim2SF_1 : Prim2SF 1 = S754_finite false 4503599627370496 (-52).
Proof. reflexivity. Qed.

(** A finite non-zero number divided by itself is exactly 1: the quotient of
    the mantissas is [2^53] without remainder. *)
Lemma SFdiv_diag (s : bool) (m : positive) (e : Z) :
  SF64div (S754_finite s m e) (S754_finite s m e)
  = S754_finite false 4503599627370496 (-52).
Proof.
  unfold SF64div. cbn [SFdiv]. unfold SFdiv_core_binary.
  rewrite !Z.sub_diag.
  cbn [Zdigits2].
  assert (Hf : Z.min (fexp prec emax 0) 0 = -53) by reflexivity.
  rewrite Hf. 
  assert (Hs : 0 - -53 = 53) by reflexivity. rewrite Hs.
  rewrite Z.shiftl_mul_pow2 by lia.
  assert (Hd : Z.div_eucl (Zpos m * 2 ^ 53) (Zpos m) = (2 ^ 53, 0)).
  { pose proof (Z.div_eucl_eq (Zpos m * 2 ^ 53) (Zpos m) ltac:(lia)) as H.
    pose proof (Z.mod_pos_bound (Zpos m * 2 ^ 53) (Zpos m) ltac:(lia)) as Hb.
    unfold Z.modulo in Hb.
    destruct (Z.div_eucl (Zpos m * 2 ^ 53) (Zpos m)) as [q r].
    assert (r = 0 /\ q = 2 ^ 53) as [-> ->]; [|reflexivity].
    assert (Hr : Zpos m * (2 ^ 53 - q) = r) by lia.
    assert (2 ^ 53 - q = 0) by nia. split; nia. }
  rewrite Hd.
  assert (Hl : new_location (Zpos m) 0 = loc_Exact).
  { unfold new_location, new_location_even, new_location_odd.
    destruct (Z.even (Zpos m)); reflexivity. }
  rewrite Hl. destruct s; reflexivity.
Qed.

Local Close Scope Z_scope.
Local Open Scope float_scope.

(** * Facts about the engine *)

Section EngineFacts.

Context {host : Runtime}.

(** [calculateRetirement] stores [project] of the inputs and leaves the
    inputs alone. *)
Lemma calculateRetirement_results (st : State) :
  results (calculateRetirement st) = Some (project (inputs st)).
Proof. reflexivity. Qed.

Lemma calculateRetirement_inputs (st : State) :
  inputs (calculateRetirement st) = inputs st.
Proof. reflexivity. Qed.

Lemma SFeqb_nonfinite_finite (x y : spec_float) :
  SFnonfinite x = true -> SFnonfinite y = false -> SFeqb x y = false.
Proof.
  destruct x as [s|s| |s m e], y as [t|t| |t n f]; intros Hx Hy;
    try discriminate Hx; try discriminate Hy; try reflexivity;
    destruct s; reflexivity.
Qed.

Lemma nonfinite_neq_finite (x y : float) :
  nonfinite x -> is_finite y = true -> (x =? y) = false.
Proof.
  intros Hx%nonfinite_SF Hy. rewrite is_finite_SF in Hy.
  rewrite eqb_spec. apply SFeqb_nonfinite_finite; [assumption|].
  destruct (SFnonfinite (Prim2SF y)); [discriminate Hy|reflexivity].
Qed.

Lemma div_diag (x : float) :
  is_finite x = true -> is_zero x = false -> x / x = 1.
Proof.
  rewrite is_finite_SF, is_zero_SFzero. intros Hf Hz.
  apply Prim2SF_inj. rewrite div_spec, Prim2SF_1.
  destruct (Prim2SF x) as [s|s| |s m e];
    try discriminate Hf; try discriminate Hz.
  apply SFdiv_diag.
Qed.

(** Equal nominal return and inflation give a real rate of exactly zero. *)
Lemma equal_rates_monthlyRate (i : CalculatorInputs) :
  expectedReturn i = inflationRate i ->
  is_finite (1 + inflationRate i / 100) = true ->
  is_zero (1 + inflationRate i / 100) = false ->
  realReturnRate i = 0 /\ monthlyRate i = 0.
Proof.
  intros He Hf Hz. unfold monthlyRate, realReturnRate.
  rewrite He, div_diag by assumption. split; reflexivity.
Qed.

(** With a zero monthly rate the annuity factor is [0/0] or [c/0]. *)
Lemma zero_rate_annuityFactor (i : CalculatorInputs) :
  is_zero (monthlyRate i) = true -> nonfinite (annuityFactor i).
Proof. intros Hz. unfold annuityFactor. now apply div_by_zero_nonfinite. Qed.

Lemma zero_rate_totalSavingsRaw (i : CalculatorInputs) :
  is_zero (monthlyRate i) = true -> nonfinite (totalSavingsRaw i).
Proof.
  intros Hz. unfold totalSavingsRaw, futureContributions.
  apply add_nonfinite_r, mul_nonfinite_r, zero_rate_annuityFactor, Hz.
Qed.

End EngineFacts.

(** * Properties of the engine *)

(** C1 (the code does not do this): a zero monthly rate is not special-cased.
    Equal nominal return and inflation give a monthly rate of exactly zero;
    and whenever [monthlyRate] is [+0] or [-0], whatever [Math.pow] returns,
    the future value of the contributions is NaN or an infinity, so it
    differs from [monthlyContributions * months] when that product is finite,
    and the non-finite value reaches all three currency fields of the
    result. *)
Theorem zero_monthly_rate_propagates_nonfinite
    (host : Runtime) (i : CalculatorInputs) :
  (expectedReturn i = inflationRate i ->
   is_finite (1 + inflationRate i / 100) = true ->
   is_zero (1 + inflationRate i / 100) = false ->
   is_zero (monthlyRate i) = true) /\
  (is_zero (monthlyRate i) = true ->
   nonfinite (futureContributions i) /\
   (is_finite (monthlyContributions i * months i) = true ->
    (futureContributions i =? monthlyContributions i * months i) = false) /\
   nonfinite (totalSavings (project i)) /\
   nonfinite (annualIncome (project i)) /\
   nonfinite (shortfall (project i))).
Proof.
  split.
  { intros He Hf Hn.
    destruct (equal_rates_monthlyRate i He Hf Hn) as [_ ->]. reflexivity. }
  intros Hz.
  pose proof (zero_rate_annuityFactor i Hz) as Hf.
  pose proof (zero_rate_totalSavingsRaw i Hz) as Ht.
  assert (Hc : nonfinite (futureContributions i))
    by (apply mul_nonfinite_r, Hf).
  assert (Hi : nonfinite (totalAnnualIncome i))
    by (apply add_nonfinite_l, mul_nonfinite_l, Ht).
  assert (Hg : nonfinite (Math_abs (gap i)))
    by (apply abs_nonfinite, sub_nonfinite_r, Hi).
  cbn [project totalSavings annualIncome shortfall].
  rewrite !Math_round_nonfinite by assumption.
  repeat split; try assumption.
  intros Hp. now apply nonfinite_neq_finite.
Qed.

Lemma zero_monthly_rate_propagates_nonfinite_witness :
  expectedReturn zeroRateInputs = inflationRate zeroRateInputs /\
  is_finite (1 + inflationRate zeroRateInputs / 100) = true /\
  is_zero (1 + inflationRate zeroRateInputs / 100) = false /\
  is_zero (monthlyRate zeroRateInputs) = true /\
  is_finite (monthlyContributions zeroRateInputs * months zeroRateInputs) = true /\
  (@futureContributions referenceHost zeroRateInputs
     =? monthlyContributions zeroRateInputs * months zeroRateInputs) = false /\
  nonfinite (totalSavings (@project referenceHost zeroRateInputs)).
Proof.
  assert (He : expectedReturn zeroRateInputs = inflationRate zeroRateInputs)
    by reflexivity.
  assert (Hf : is_finite (1 + inflationRate zeroRateInputs / 100) = true)
    by (vm_compute; reflexivity).
  assert (Hn : is_zero (1 + inflationRate zeroRateInputs / 100) = false)
    by (vm_compute; reflexivity).
  assert (Hp : is_finite (monthlyContributions zeroRateInputs
                          * months zeroRateInputs) = true)
    by (vm_compute; reflexivity).
  destruct (zero_monthly_rate_propagates_nonfinite referenceHost zeroRateInputs)
    as [Hrate Hnon].
  pose proof (Hrate He Hf Hn) as Hz.
  destruct (Hnon Hz) as (_ & Hne & Ht & _).
  split; [exact He|]. split; [exact Hf|]. split; [exact Hn|].
  split; [exact Hz|]. split; [exact Hp|].
  split; [exact (Hne Hp)|exact Ht].
Defined.

(** The default inputs on the reference host: 35 years at a real rate of
    about 4.9% take 50000 and 500 a month to 822759; 4% of that plus the
    state pension is 43511, a surplus of 3511 over the desired 40000. *)
Example default_scenario :
  yearsToInvest DEFAULT_INPUTS = 35 /\
  @project referenceHost DEFAULT_INPUTS =
    {| totalSavings := 822759; annualIncome := 43511;
       shortfall := 3511; isShortfall := false |}.
Proof. split; vm_compute; reflexivity. Qed.

(** The failing input of C1 evaluated on the reference host: the engine
    reports NaN where the contributions alone sum to 500 * 420 = 210000. *)
Example zero_rate_on_reference_host :
  @project referenceHost zeroRateInputs =
    {| totalSavings := nan; annualIncome := nan;
       shortfall := nan; isShortfall := false |} /\
  monthlyContributions zeroRateInputs * months zeroRateInputs = 210000.
Proof. split; vm_compute; reflexivity. Qed.

(** ** Signs *)

Lemma Prim2SF_0 : Prim2SF 0 = S754_zero false.
Proof. reflexivity. Qed.

Lemma SFabs_positive (x : spec_float) :
  SFltb (S754_zero false) x = true -> SFabs x = x.
Proof.
  destruct x as [s|s| |s m e]; intros H; try discriminate H;
    destruct s; try discriminate H; reflexivity.
Qed.

Lemma SFabs_negative (x : spec_float) :
  SFltb x (S754_zero false) = true -> SFabs x = SFopp x.
Proof.
  destruct x as [s|s| |s m e]; intros H; try discriminate H;
    destruct s; try discriminate H; reflexivity.
Qed.

Lemma SFleb_not_positive (x : spec_float) :
  SFleb x (S754_zero false) = true -> SFltb (S754_zero false) x = false.
Proof.
  destruct x as [s|s| |s m e]; intros H; try discriminate H;
    destruct s; try discriminate H; reflexivity.
Qed.

Lemma abs_positive (x : float) : (0 <? x) = true -> Math_abs x = x.
Proof.
  rewrite ltb_spec, Prim2SF_0. intros H. apply Prim2SF_inj.
  unfold Math_abs. rewrite abs_spec. now apply SFabs_positive.
Qed.

Lemma abs_negative (x : float) : (x <? 0) = true -> Math_abs x = - x.
Proof.
  rewrite ltb_spec, Prim2SF_0. intros H. apply Prim2SF_inj.
  unfold Math_abs. rewrite abs_spec, opp_spec. now apply SFabs_negative.
Qed.

Lemma not_positive (x : float) : (x <=? 0) = true -> (0 <? x) = false.
Proof.
  rewrite leb_spec, ltb_spec, Prim2SF_0. apply SFleb_not_positive.
Qed.

(** Equal finite numbers differ by a zero, whose magnitude rounds to [+0]. *)
Lemma sub_equal_finite (x y : float) :
  (x =? y) = true -> is_finite x = true ->
  is_zero (x - y) = true /\ (0 <? x - y) = false /\
  Math_round (Math_abs (x - y)) = 0.
Proof.
  rewrite eqb_spec, is_finite_SF. intros He Hf.
  assert (Hz : SFzero (Prim2SF (x - y)) = true).
  { rewrite sub_spec. apply SFsub_eqb_zero; [assumption|].
    destruct (SFnonfinite (Prim2SF x)); [discriminate Hf|reflexivity]. }
  split; [|split].
  - now rewrite is_zero_SFzero.
  - rewrite ltb_spec, Prim2SF_0. now apply SFltb_zero_false.
  - unfold Math_round, Math_abs. rewrite abs_spec, SFround_abs_zero by assumption.
    reflexivity.
Qed.

(** C2: the gap is desired income minus total annual income; [isShortfall]
    is its strict positivity, the reported amount is the rounded magnitude;
    a positive gap is reported as a shortfall of (the rounding of) itself, a
    negative or zero one as a surplus of its absolute value; and when the
    desired income equals the computed income the gap is zero, the amount 0
    and [isShortfall] false. *)
Theorem gap_shortfall_or_surplus (host : Runtime) (i : CalculatorInputs) :
  gap i = desiredIncome i - totalAnnualIncome i /\
  isShortfall (project i) = (0 <? gap i) /\
  shortfall (project i) = Math_round (Math_abs (gap i)) /\
  ((0 <? gap i) = true ->
   isShortfall (project i) = true /\
   shortfall (project i) = Math_round (gap i)) /\
  ((gap i <=? 0) = true ->
   isShortfall (project i) = false /\
   shortfall (project i) = Math_round (Math_abs (gap i))) /\
  ((gap i <? 0) = true -> shortfall (project i) = Math_round (- gap i)) /\
  ((desiredIncome i =? totalAnnualIncome i) = true ->
   is_finite (desiredIncome i) = true ->
   is_zero (gap i) = true /\
   isShortfall (project i) = false /\
   shortfall (project i) = 0).
Proof.
  cbn [project isShortfall shortfall].
  split; [reflexivity|]. split; [reflexivity|]. split; [reflexivity|].
  split; [|split; [|split]].
  - intros Hp. split; [assumption|]. now rewrite abs_positive.
  - intros Hn. split; [now apply not_positive|reflexivity].
  - intros Hn. now rewrite abs_negative.
  - intros He Hf. unfold gap.
    destruct (sub_equal_finite _ _ He Hf) as (Hz & Hl & Hr). auto.
Qed.

Lemma gap_shortfall_or_surplus_witness :
  ((0 <? @gap referenceHost (nothingSaved true)) = true /\
   isShortfall (@project referenceHost (nothingSaved true)) = true /\
   shortfall (@project referenceHost (nothingSaved true)) = 29400) /\
  ((desiredIncome breakEven =? @totalAnnualIncome referenceHost breakEven) = true /\
   is_finite (desiredIncome breakEven) = true /\
   (@gap referenceHost breakEven <=? 0) = true /\
   isShortfall (@project referenceHost breakEven) = false /\
   shortfall (@project referenceHost breakEven) = 0).
Proof.
  split.
  - destruct (gap_shortfall_or_surplus referenceHost (nothingSaved true))
      as (_ & _ & _ & Hp & _).
    assert (H : (0 <? @gap referenceHost (nothingSaved true)) = true)
      by (vm_compute; reflexivity).
    destruct (Hp H) as [Hs Hr]. split; [exact H|]. split; [exact Hs|].
    rewrite Hr. vm_compute. reflexivity.
  - destruct (gap_shortfall_or_surplus referenceHost breakEven)
      as (_ & _ & _ & _ & Hn & _ & He).
    assert (H1 : (desiredIncome breakEven
                  =? @totalAnnualIncome referenceHost breakEven) = true)
      by (vm_compute; reflexivity).
    assert (H2 : is_finite (desiredIncome breakEven) = true)
      by (vm_compute; reflexivity).
    assert (H3 : (@gap referenceHost breakEven <=? 0) = true)
      by (vm_compute; reflexivity).
    destruct (He H1 H2) as (_ & Hs & Hr). destruct (Hn H3) as [Hs' _].
    repeat split; assumption.
Defined.

(** C3: the real annual rate is [(1 + nominal/100) / (1 + inflation/100) - 1]
    and it is this rate that the growth of the savings and the monthly rate
    are computed from.  It is not the difference of the percentages: for the
    default inputs (7% and 2%) it is about 0.04902, not 0.05; its exact value
    is within [10^-15] of [1.07/1.02 - 1 = 5/102]. *)
Theorem real_rate_is_compounded (host : Runtime) (i : CalculatorInputs) :
  realReturnRate i
    = (1 + expectedReturn i / 100) / (1 + inflationRate i / 100) - 1 /\
  futureSavings i
    = currentSavings i
      * Math_pow (1 + ((1 + expectedReturn i / 100)
                       / (1 + inflationRate i / 100) - 1))
                 (yearsToInvest i) /\
  monthlyRate i
    = ((1 + expectedReturn i / 100) / (1 + inflationRate i / 100) - 1) / 12 /\
  totalSavings (project i)
    = Math_round (futureSavings i + futureContributions i) /\
  (realReturnRate DEFAULT_INPUTS
     =? (expectedReturn DEFAULT_INPUTS - inflationRate DEFAULT_INPUTS) / 100)
    = false /\
  (0.04901 <? realReturnRate DEFAULT_INPUTS) = true /\
  (realReturnRate DEFAULT_INPUTS <? 0.04903) = true /\
  (exists q : Q,
     to_Q (realReturnRate DEFAULT_INPUTS) = Some q /\
     ((5 # 102) - (1 # 1000000000000000) < q)%Q /\
     (q < (5 # 102) + (1 # 1000000000000000))%Q).
Proof.
  repeat (split; [reflexivity|]).
  eexists. split; [vm_compute; reflexivity|]. split; reflexivity.
Qed.

(** C4: the number of years invested is the retirement age minus the current
    age, used as it is: a retirement age below the current age gives a
    negative exponent (-35 for ages 65 and 30), and the engine still returns
    a projection.  The future value of the current savings is
    [currentSavings * Math.pow(1 + realRate, yearsToInvest)]. *)
Theorem years_to_invest_not_clamped (host : Runtime) (i : CalculatorInputs) :
  yearsToInvest i = retirementAge i - currentAge i /\
  futureSavings i
    = currentSavings i
      * Math_pow (1 + realReturnRate i) (retirementAge i - currentAge i) /\
  months i = (retirementAge i - currentAge i) * 12 /\
  totalSavings (project i)
    = Math_round (futureSavings i + futureContributions i) /\
  yearsToInvest negativeSpan = -35 /\
  (yearsToInvest negativeSpan <? 0) = true /\
  futureSavings negativeSpan
    = 50000 * Math_pow (1 + realReturnRate negativeSpan) (-35) /\
  totalSavings (@project referenceHost negativeSpan) = -90945.
Proof.
  repeat (split; [reflexivity|]). vm_compute. reflexivity.
Qed.

(** C5: the annual withdrawal is the (unrounded) total savings times the
    constant 0.04, that is 4/100; [yearsInRetirement] is life expectancy
    minus retirement age and has no influence: two input records that differ
    in the life expectancy only give the same result. *)
Theorem withdrawal_is_four_percent
    (host : Runtime) (i : CalculatorInputs) (v : float) (r : option Results) :
  annualWithdrawal i = totalSavingsRaw i * 0.04 /\
  withdrawalRate = 4 / 100 /\
  annualIncome (project i)
    = Math_round (totalSavingsRaw i * 0.04 + statePensionAmount i) /\
  yearsInRetirement i = lifeExpectancy i - retirementAge i /\
  yearsInRetirement (withLifeExpectancy v i) = v - retirementAge i /\
  project (withLifeExpectancy v i) = project i /\
  results (calculateRetirement
             {| inputs := withLifeExpectancy v i; results := r |})
    = results (calculateRetirement {| inputs := i; results := r |}).
Proof. repeat split. Qed.

(** ** Adding a zero *)

Lemma Prim2SF_neg_zero (x : float) :
  Prim2SF x = S754_zero true -> x = neg_zero.
Proof. intros H. rewrite <- (SF2Prim_Prim2SF x), H. reflexivity. Qed.

(** [x + 0] is [x], except that [-0 + 0] is [+0]. *)
Lemma add_zero_r (x : float) :
  (x = neg_zero /\ x + 0 = 0) \/ x + 0 = x.
Proof.
  destruct (Prim2SF x) as [[|]|s| |s m e] eqn:Hx.
  1: { left. apply Prim2SF_neg_zero in Hx. subst x. split; reflexivity. }
  all: right; apply Prim2SF_inj;
    rewrite add_spec, Prim2SF_0, Hx; reflexivity.
Qed.

(** C6: with the state-pension flag set the total annual income is the
    withdrawal plus [STATE_PENSION_ANNUAL], the weekly 203.85 times 52
    (10600.20 to the penny: the binary64 product is 10600.199999999999);
    with the flag unset it is the withdrawal plus 0, that is the withdrawal
    itself (up to the sign of a zero). *)
Theorem state_pension_is_added (host : Runtime) (i : CalculatorInputs) :
  STATE_PENSION_WEEKLY = 203.85 /\
  STATE_PENSION_ANNUAL = 203.85 * 52 /\
  (10600.199999999 <? STATE_PENSION_ANNUAL) = true /\
  (STATE_PENSION_ANNUAL <=? 10600.2) = true /\
  (includeStatePension i = true ->
   totalAnnualIncome i = annualWithdrawal i + STATE_PENSION_ANNUAL) /\
  (includeStatePension i = false ->
   totalAnnualIncome i = annualWithdrawal i + 0 /\
   ((annualWithdrawal i = neg_zero /\ totalAnnualIncome i = 0) \/
    totalAnnualIncome i = annualWithdrawal i)) /\
  annualIncome (project i) = Math_round (totalAnnualIncome i).
Proof.
  repeat (split; [reflexivity|]).
  split; [|split; [|reflexivity]].
  - intros Hf. unfold totalAnnualIncome, statePensionAmount. now rewrite Hf.
  - intros Hf. unfold totalAnnualIncome, statePensionAmount. rewrite Hf.
    split; [reflexivity|]. apply add_zero_r.
Qed.

Lemma state_pension_is_added_witness :
  (includeStatePension (nothingSaved true) = true /\
   @totalAnnualIncome referenceHost (nothingSaved true)
     = @annualWithdrawal referenceHost (nothingSaved true)
       + STATE_PENSION_ANNUAL) /\
  (includeStatePension (nothingSaved false) = false /\
   @totalAnnualIncome referenceHost (nothingSaved false)
     = @annualWithdrawal referenceHost (nothingSaved false) + 0).
Proof.
  destruct (state_pension_is_added referenceHost (nothingSaved true))
    as (_ & _ & _ & _ & Hset & _).
  destruct (state_pension_is_added referenceHost (nothingSaved false))
    as (_ & _ & _ & _ & _ & Hunset & _).
  split.
  - split; [reflexivity|]. apply Hset. reflexivity.
  - split; [reflexivity|]. apply Hunset. reflexivity.
Defined.

(** ** Finite numbers *)

Lemma finite_SFnonfinite (x : float) :
  is_finite x = true -> SFnonfinite (Prim2SF x) = false.
Proof.
  rewrite is_finite_SF. destruct (SFnonfinite (Prim2SF x)); [discriminate|reflexivity].
Qed.

Lemma SF2Z_is_integer (y : spec_float) (n : Z) :
  SF2Z y = Some n -> SFis_integer y = true.
Proof.
  destruct y as [s|s| |s m e]; try discriminate; [reflexivity|].
  cbn [SF2Z SFis_integer]. destruct (0 <=? e)%Z; [reflexivity|].
  destruct (Zpos m mod 2 ^ (- e) =? 0)%Z; [reflexivity|discriminate].
Qed.

Lemma SF2Q_finite (x : spec_float) :
  SFnonfinite x = false -> SF2Q x <> None.
Proof. destruct x; discriminate. Qed.

(** [Math.round] of a finite number is the nearest integer, halves up. *)
Lemma Math_round_finite (x : float) :
  is_finite x = true ->
  is_integer (Math_round x) = true /\ nearest_half_up x (Math_round x).
Proof.
  intros Hf%finite_SFnonfinite.
  assert (Hn : nearest_half_up x (Math_round x)).
  { unfold nearest_half_up. rewrite Prim2SF_Math_round.
    apply SFround_nearest; [apply Prim2SF_valid|now apply SF2Q_finite]. }
  split; [|exact Hn].
  destruct Hn as (q & n & _ & Hz & _). unfold is_integer.
  eapply SF2Z_is_integer, Hz.
Qed.

(** NaN and the infinities are not integers, and [Math.round] returns them. *)
Lemma Math_round_nonfinite_not_integer (x : float) :
  nonfinite x -> Math_round x = x /\ is_integer (Math_round x) = false.
Proof.
  intros Hx. rewrite Math_round_nonfinite by assumption. split; [reflexivity|].
  apply nonfinite_SF in Hx. unfold is_integer.
  destruct (Prim2SF x); try discriminate Hx; reflexivity.
Qed.

Lemma abs_finite (x : float) :
  is_finite x = true -> is_finite (Math_abs x) = true.
Proof.
  unfold Math_abs. rewrite !is_finite_SF, abs_spec, SFabs_nonfinite. auto.
Qed.

Lemma SFround_zero (x : spec_float) :
  SFzero x = true -> SFzero (SFround x) = true.
Proof. destruct x; try discriminate; reflexivity. Qed.

Lemma Math_round_zero (x : float) :
  is_zero x = true -> is_zero (Math_round x) = true.
Proof.
  rewrite !is_zero_SFzero, Prim2SF_Math_round. apply SFround_zero.
Qed.

Lemma mul_zero_finite (x y : float) :
  is_zero x = true -> is_finite y = true -> is_zero (x * y) = true.
Proof.
  rewrite !is_zero_SFzero, mul_spec. intros Hx Hy%finite_SFnonfinite.
  now apply SFmul_zero_l.
Qed.

Lemma add_zero_zero (x y : float) :
  is_zero x = true -> is_zero y = true -> is_zero (x + y) = true.
Proof.
  rewrite !is_zero_SFzero, add_spec. apply SFadd_zero_zero.
Qed.

(** [w + y] is [y] when [w] is a zero and [y] is not [-0]. *)
Lemma add_zero_l (w y : float) :
  is_zero w = true -> Prim2SF y <> S754_zero true -> w + y = y.
Proof.
  rewrite is_zero_SFzero. intros Hw Hy. apply Prim2SF_inj.
  rewrite add_spec. now apply SFadd_zero_l.
Qed.

(** C7, counterexample: nothing saved and nothing contributed, over a
    horizon so long that the growth factors overflow to Infinity; [0 * Infinity]
    is NaN, so the projected savings and the income are NaN, not 0 and the
    state pension.  The same happens for a zero real rate (2% return, 2%
    inflation), where the annuity factor is [0/0]. *)
Lemma nothing_saved_is_nan :
  (is_zero (currentSavings nothingSavedLongHorizon) = true /\
   is_zero (monthlyContributions nothingSavedLongHorizon) = true /\
   is_zero (totalSavings (@project referenceHost nothingSavedLongHorizon)) = false /\
   totalSavings (@project referenceHost nothingSavedLongHorizon) = nan /\
   annualIncome (@project referenceHost nothingSavedLongHorizon) = nan) /\
  (is_zero (currentSavings nothingSavedZeroRate) = true /\
   is_zero (monthlyContributions nothingSavedZeroRate) = true /\
   is_zero (totalSavings (@project referenceHost nothingSavedZeroRate)) = false /\
   totalSavings (@project referenceHost nothingSavedZeroRate) = nan /\
   annualIncome (@project referenceHost nothingSavedZeroRate) = nan).
Proof. repeat split; vm_compute; reflexivity. Qed.

(** C7, amended: with current savings 0 and monthly contribution 0, if the
    two growth factors the engine multiplies them by (the power of the real
    rate and the annuity factor) are finite, then the projected total savings
    are 0, the (unrounded) annual income is exactly the state-pension amount
    when the flag is set and 0 when it is not, and the reported income is
    that amount rounded: 10600 or 0. *)
Theorem nothing_saved_projects_pension_only
    (host : Runtime) (i : CalculatorInputs) :
  is_zero (currentSavings i) = true ->
  is_zero (monthlyContributions i) = true ->
  is_finite (Math_pow (1 + realReturnRate i) (yearsToInvest i)) = true ->
  is_finite (annuityFactor i) = true ->
  is_zero (totalSavings (project i)) = true /\
  totalAnnualIncome i = (if includeStatePension i then STATE_PENSION_ANNUAL else 0) /\
  annualIncome (project i) = (if includeStatePension i then 10600 else 0).
Proof.
  intros Hs Hc Hp Ha.
  assert (Ht : is_zero (totalSavingsRaw i) = true).
  { unfold totalSavingsRaw, futureSavings, futureContributions.
    apply add_zero_zero; now apply mul_zero_finite. }
  assert (Hw : is_zero (annualWithdrawal i) = true).
  { unfold annualWithdrawal. apply mul_zero_finite; [assumption|reflexivity]. }
  assert (Hi : totalAnnualIncome i
               = if includeStatePension i then STATE_PENSION_ANNUAL else 0).
  { unfold totalAnnualIncome, statePensionAmount.
    apply add_zero_l; [assumption|].
    destruct (includeStatePension i); vm_compute; discriminate. }
  cbn [project totalSavings annualIncome]. rewrite Hi.
  split; [now apply Math_round_zero|]. split; [reflexivity|].
  destruct (includeStatePension i); vm_compute; reflexivity.
Qed.

Lemma nothing_saved_projects_pension_only_witness :
  is_zero (currentSavings (nothingSaved true)) = true /\
  is_zero (monthlyContributions (nothingSaved true)) = true /\
  is_finite (@Math_pow referenceHost (1 + realReturnRate (nothingSaved true))
               (yearsToInvest (nothingSaved true))) = true /\
  is_finite (@annuityFactor referenceHost (nothingSaved true)) = true /\
  is_zero (totalSavings (@project referenceHost (nothingSaved true))) = true /\
  annualIncome (@project referenceHost (nothingSaved true)) = 10600.
Proof.
  assert (H1 : is_zero (currentSavings (nothingSaved true)) = true)
    by reflexivity.
  assert (H2 : is_zero (monthlyContributions (nothingSaved true)) = true)
    by reflexivity.
  assert (H3 : is_finite (@Math_pow referenceHost
                            (1 + realReturnRate (nothingSaved true))
                            (yearsToInvest (nothingSaved true))) = true)
    by (vm_compute; reflexivity).
  assert (H4 : is_finite (@annuityFactor referenceHost (nothingSaved true)) = true)
    by (vm_compute; reflexivity).
  destruct (nothing_saved_projects_pension_only
              referenceHost (nothingSaved true) H1 H2 H3 H4) as (Ht & _ & Hi).
  repeat split; assumption.
Defined.

(** C8, counterexample: savings of 1e308 overflow when they grow; the engine
    reports Infinity in all three currency fields, and Infinity is not an
    integer. *)
Lemma huge_savings_not_integer :
  is_finite (currentSavings hugeSavings) = true /\
  totalSavings (@project referenceHost hugeSavings) = infinity /\
  is_integer (totalSavings (@project referenceHost hugeSavings)) = false /\
  is_integer (annualIncome (@project referenceHost hugeSavings)) = false /\
  is_integer (shortfall (@project referenceHost hugeSavings)) = false.
Proof. repeat split; vm_compute; reflexivity. Qed.

(** C8, amended: each of the three currency fields is [Math.round] of the
    unrounded quantity (for the gap, of its absolute value).  Whenever that
    quantity is finite the field is an integer, the nearest one, a half-way
    value going up (towards +infinity): [Math.round(1000.5)] is 1001,
    [Math.round(-1000.5)] is -1000, [Math.round(2.5)] is 3.  A quantity that
    is NaN or infinite is stored as it is, and is not an integer. *)
Theorem currency_fields_are_rounded (host : Runtime) (i : CalculatorInputs) :
  totalSavings (project i) = Math_round (totalSavingsRaw i) /\
  annualIncome (project i) = Math_round (totalAnnualIncome i) /\
  shortfall (project i) = Math_round (Math_abs (gap i)) /\
  (is_finite (totalSavingsRaw i) = true ->
   is_integer (totalSavings (project i)) = true /\
   nearest_half_up (totalSavingsRaw i) (totalSavings (project i))) /\
  (is_finite (totalAnnualIncome i) = true ->
   is_integer (annualIncome (project i)) = true /\
   nearest_half_up (totalAnnualIncome i) (annualIncome (project i))) /\
  (is_finite (gap i) = true ->
   is_integer (shortfall (project i)) = true /\
   nearest_half_up (Math_abs (gap i)) (shortfall (project i))) /\
  (nonfinite (totalSavingsRaw i) ->
   totalSavings (project i) = totalSavingsRaw i /\
   is_integer (totalSavings (project i)) = false) /\
  Math_round 1000.5 = 1001 /\
  Math_round (-1000.5) = -1000 /\
  Math_round 2.5 = 3 /\
  Math_round 1000.4999 = 1000.
Proof.
  cbn [project totalSavings annualIncome shortfall].
  repeat (split; [reflexivity|]).
  split; [apply Math_round_finite|].
  split; [apply Math_round_finite|].
  split; [intros Hg; apply Math_round_finite, abs_finite, Hg|].
  split; [apply Math_round_nonfinite_not_integer|].
  repeat split; vm_compute; reflexivity.
Qed.

Lemma currency_fields_are_rounded_witness :
  is_finite (@totalSavingsRaw referenceHost DEFAULT_INPUTS) = true /\
  is_finite (@totalAnnualIncome referenceHost DEFAULT_INPUTS) = true /\
  is_finite (@gap referenceHost DEFAULT_INPUTS) = true /\
  is_integer (totalSavings (@project referenceHost DEFAULT_INPUTS)) = true /\
  is_integer (annualIncome (@project referenceHost DEFAULT_INPUTS)) = true /\
  is_integer (shortfall (@project referenceHost DEFAULT_INPUTS)) = true /\
  nonfinite (@totalSavingsRaw referenceHost hugeSavings) /\
  totalSavings (@project referenceHost hugeSavings)
    = @totalSavingsRaw referenceHost hugeSavings.
Proof.
  assert (H1 : is_finite (@totalSavingsRaw referenceHost DEFAULT_INPUTS) = true)
    by (vm_compute; reflexivity).
  assert (H2 : is_finite (@totalAnnualIncome referenceHost DEFAULT_INPUTS) = true)
    by (vm_compute; reflexivity).
  assert (H3 : is_finite (@gap referenceHost DEFAULT_INPUTS) = true)
    by (vm_compute; reflexivity).
  assert (H4 : nonfinite (@totalSavingsRaw referenceHost hugeSavings))
    by (vm_compute; reflexivity).
  destruct (currency_fields_are_rounded referenceHost DEFAULT_INPUTS)
    as (_ & _ & _ & Ht & Hi & Hg & _).
  destruct (currency_fields_are_rounded referenceHost hugeSavings)
    as (_ & _ & _ & _ & _ & _ & Hn & _).
  destruct (Ht H1) as [Ht' _]. destruct (Hi H2) as [Hi' _].
  destruct (Hg H3) as [Hg' _]. destruct (Hn H4) as [Hn' _].
  repeat split; assumption.
Defined.

(** C9: the record the engine stores is a function of the nine input fields
    alone.  Two component states with the same inputs, whatever results they
    held before, get identical results; running the engine does not touch
    the inputs, and running it again changes nothing. *)
Theorem engine_is_deterministic (host : Runtime) (s1 s2 : State) :
  inputs s1 = inputs s2 ->
  results (calculateRetirement s1) = results (calculateRetirement s2) /\
  results (calculateRetirement s1) = Some (project (inputs s1)) /\
  inputs (calculateRetirement s1) = inputs s1 /\
  calculateRetirement (calculateRetirement s1) = calculateRetirement s1.
Proof.
  intros Hi. split; [|split; [|split]].
  - rewrite !calculateRetirement_results. now rewrite Hi.
  - apply calculateRetirement_results.
  - apply calculateRetirement_inputs.
  - reflexivity.
Qed.

Lemma engine_is_deterministic_witness :
  inputs initialState
    = inputs (@calculateRetirement referenceHost initialState) /\
  results (@calculateRetirement referenceHost initialState)
    = results (@calculateRetirement referenceHost
                 (@calculateRetirement referenceHost initialState)).
Proof.
  assert (H : inputs initialState
              = inputs (@calculateRetirement referenceHost initialState))
    by reflexivity.
  split; [exact H|].
  apply (engine_is_deterministic referenceHost initialState
           (@calculateRetirement referenceHost initialState) H).
Defined.

(** ** The rounded magnitude of a small gap *)

Lemma round_small_gap (g : float) :
  (0 <? g) = true -> (g <? 0.5) = true -> Math_round (Math_abs g) = 0.
Proof.
  intros H0 Hh. rewrite abs_positive by assumption.
  rewrite ltb_spec, Prim2SF_0 in H0. rewrite ltb_spec, Prim2SF_half in Hh.
  unfold Math_round.
  destruct (SFround_small (Prim2SF g) (Prim2SF_valid g) H0 Hh) as [_ ->].
  reflexivity.
Qed.

(** With equal ages both exponents are zero, [Math.pow] returns 1 on every
    host, and the income of [nearMiss] is the state pension. *)
Lemma gap_nearMiss (host : Runtime) :
  gap nearMiss = 10600.5 - STATE_PENSION_ANNUAL.
Proof.
  unfold gap, totalAnnualIncome, annualWithdrawal, totalSavingsRaw,
    futureSavings, futureContributions, annuityFactor.
  rewrite !Math_pow_exponent_zero by reflexivity. reflexivity.
Qed.

(** C10: [isShortfall] is the sign of the unrounded gap and the amount is
    rounded afterwards, so every gap strictly between 0 and 0.5 is reported
    as a shortfall of 0; on every host the input [nearMiss] (retiring at
    once on the state pension, desired income 10600.50) is such a record. *)
Theorem shortfall_flag_with_zero_amount (host : Runtime) :
  (forall i : CalculatorInputs,
     (0 <? gap i) = true -> (gap i <? 0.5) = true ->
     isShortfall (project i) = true /\ shortfall (project i) = 0) /\
  (exists i : CalculatorInputs,
     (0 <? gap i) = true /\ (gap i <? 0.5) = true /\
     isShortfall (project i) = true /\ shortfall (project i) = 0).
Proof.
  assert (Hall : forall i : CalculatorInputs,
            (0 <? gap i) = true -> (gap i <? 0.5) = true ->
            isShortfall (project i) = true /\ shortfall (project i) = 0).
  { intros i H0 Hh. cbn [project isShortfall shortfall].
    split; [assumption|now apply round_small_gap]. }
  split; [exact Hall|].
  exists nearMiss.
  assert (H0 : (0 <? gap nearMiss) = true)
    by (rewrite gap_nearMiss; reflexivity).
  assert (Hh : (gap nearMiss <? 0.5) = true)
    by (rewrite gap_nearMiss; reflexivity).
  destruct (Hall nearMiss H0 Hh). auto.
Qed.

Lemma shortfall_flag_with_zero_amount_witness :
  (0 <? @gap referenceHost nearMiss) = true /\
  (@gap referenceHost nearMiss <? 0.5) = true /\
  isShortfall (@project referenceHost nearMiss) = true /\
  shortfall (@project referenceHost nearMiss) = 0.
Proof.
  assert (H0 : (0 <? @gap referenceHost nearMiss) = true)
    by (vm_compute; reflexivity).
  assert (Hh : (@gap referenceHost nearMiss <? 0.5) = true)
    by (vm_compute; reflexivity).
  destruct (shortfall_flag_with_zero_amount referenceHost) as [Hall _].
  destruct (Hall nearMiss H0 Hh) as [Hs Hr].
  repeat split; assumption.
Defined.

(** * The component: change events, effect and panel *)

(** Case analysis on every comparison of a property name. *)
Ltac name_cases :=
  repeat match goal with
  | |- context [String.eqb ?a ?b] =>
      destruct (String.eqb_spec a b); try subst; try discriminate; try congruence
  end.

Lemma numberField_assignProperty
    (prev : CalculatorInputs) (n k : string) (v : JSValue) :
  numberField k (assignProperty prev n v)
  = if (k =? n)%string
    then option_map (fun _ => ToNumber v) (numberField k prev)
    else numberField k prev.
Proof.
  unfold assignProperty, numberField.
  destruct (String.eqb_spec k n) as [->|Hkn]; name_cases; reflexivity.
Qed.

Lemma includeStatePension_assignProperty
    (prev : CalculatorInputs) (n : string) (v : JSValue) :
  includeStatePension (assignProperty prev n v)
  = if (n =? "includeStatePension")%string then ToBoolean v
    else includeStatePension prev.
Proof. unfold assignProperty. name_cases; reflexivity. Qed.

Lemma assignProperty_overwrite
    (prev : CalculatorInputs) (n : string) (v w : JSValue) :
  assignProperty (assignProperty prev n v) n w = assignProperty prev n w.
Proof. unfold assignProperty. name_cases; reflexivity. Qed.

Lemma assignProperty_commute
    (prev : CalculatorInputs) (n m : string) (v w : JSValue) :
  n <> m ->
  assignProperty (assignProperty prev n v) m w
  = assignProperty (assignProperty prev m w) n v.
Proof. intros Hnm. unfold assignProperty. name_cases; reflexivity. Qed.

(** X1: a change event of an input that is not a checkbox stores
    [Number(value)] as it is under the event's name, whatever the [min],
    [max] and [step] of the input: the named property then reads as that
    number, every other number property and the results are as before, and
    so is the pension flag unless the event names it. *)
Theorem number_input_is_stored_unchecked
    (e : ChangeEvent) (st : State) (k : string) :
  (type e =? "checkbox")%string = false ->
  numberField k (inputs (handleInputChange e st))
    = (if (k =? name e)%string
       then option_map (fun _ => value e) (numberField k (inputs st))
       else numberField k (inputs st)) /\
  (name e <> "includeStatePension"%string ->
   includeStatePension (inputs (handleInputChange e st))
     = includeStatePension (inputs st)) /\
  results (handleInputChange e st) = results st.
Proof.
  intros Ht. unfold handleInputChange, setInputs. cbn [inputs results].
  rewrite Ht, numberField_assignProperty, includeStatePension_assignProperty.
  split; [reflexivity|]. split; [|reflexivity].
  intros Hn. apply String.eqb_neq in Hn. now rewrite Hn.
Qed.

Lemma number_input_is_stored_unchecked_witness :
  (type retireAt20 =? "checkbox")%string = false /\
  numberField "retirementAge" (inputs (handleInputChange retireAt20 initialState))
    = Some 20 /\
  numberField "currentAge" (inputs (handleInputChange retireAt20 initialState))
    = Some 30 /\
  includeStatePension (inputs (handleInputChange retireAt20 initialState)) = true.
Proof.
  assert (Ht : (type retireAt20 =? "checkbox")%string = false) by reflexivity.
  destruct (number_input_is_stored_unchecked
              retireAt20 initialState "retirementAge" Ht) as (Hr & Hp & _).
  destruct (number_input_is_stored_unchecked
              retireAt20 initialState "currentAge" Ht) as (Hc & _ & _).
  split; [exact Ht|]. split; [exact Hr|]. split; [exact Hc|].
  apply Hp. discriminate.
Defined.

(** X2: a change event of the checkbox stores [checked] in
    [includeStatePension] and touches neither a number property nor the
    results. *)
Theorem checkbox_sets_the_flag (e : ChangeEvent) (st : State) (k : string) :
  type e = "checkbox"%string ->
  name e = "includeStatePension"%string ->
  includeStatePension (inputs (handleInputChange e st)) = checked e /\
  numberField k (inputs (handleInputChange e st)) = numberField k (inputs st) /\
  results (handleInputChange e st) = results st.
Proof.
  intros Ht Hn. unfold handleInputChange, setInputs. cbn [inputs results].
  rewrite Ht, Hn, numberField_assignProperty, includeStatePension_assignProperty.
  split; [reflexivity|]. split; [|reflexivity].
  unfold numberField. name_cases; reflexivity.
Qed.

Lemma checkbox_sets_the_flag_witness :
  type untickPension = "checkbox"%string /\
  name untickPension = "includeStatePension"%string /\
  includeStatePension (inputs (handleInputChange untickPension initialState))
    = false /\
  numberField "desiredIncome" (inputs (handleInputChange untickPension initialState))
    = Some 40000.
Proof.
  destruct (checkbox_sets_the_flag untickPension initialState "desiredIncome"
              eq_refl eq_refl) as (Hf & Hk & _).
  split; [reflexivity|]. split; [reflexivity|]. split; [exact Hf|exact Hk].
Defined.

(** X3: what the component holds after two change events depends on the
    last value given to each name only.  Two events with different names
    can be swapped, and of two events with the same name the first is
    forgotten. *)
Theorem edits_commute_and_overwrite
    (host : Runtime) (e1 e2 : ChangeEvent) (st : State) :
  (name e1 <> name e2 ->
   dispatch e2 (dispatch e1 st) = dispatch e1 (dispatch e2 st)) /\
  (name e1 = name e2 ->
   dispatch e2 (dispatch e1 st) = dispatch e2 st).
Proof.
  unfold dispatch, calculateRetirement, handleInputChange, setInputs, setResults.
  cbn [inputs results]. split.
  - intros Hn. now rewrite assignProperty_commute.
  - intros Hn. now rewrite Hn, assignProperty_overwrite.
Qed.

Lemma edits_commute_and_overwrite_witness :
  (name retireAt20 <> name desire50000 /\
   @dispatch referenceHost desire50000 (@dispatch referenceHost retireAt20 initialState)
   = @dispatch referenceHost retireAt20 (@dispatch referenceHost desire50000 initialState)) /\
  (name retireAt20 = name retireAt70 /\
   @dispatch referenceHost retireAt70 (@dispatch referenceHost retireAt20 initialState)
   = @dispatch referenceHost retireAt70 initialState).
Proof.
  assert (Hd : name retireAt20 <> name desire50000) by discriminate.
  assert (Hs : name retireAt20 = name retireAt70) by reflexivity.
  split.
  - split; [exact Hd|].
    apply (edits_commute_and_overwrite referenceHost retireAt20 desire50000
             initialState), Hd.
  - split; [exact Hs|].
    apply (edits_commute_and_overwrite referenceHost retireAt20 retireAt70
             initialState), Hs.
Defined.

Section ComponentFacts.

Context {host : Runtime}.

Lemma dispatch_inSync (e : ChangeEvent) (st : State) : inSync (dispatch e st).
Proof. reflexivity. Qed.

Lemma run_inSync (events : list ChangeEvent) (st : State) :
  inSync st -> inSync (run events st).
Proof.
  revert st. induction events as [|e events IH]; intros st Hs; [exact Hs|].
  cbn [run fold_left]. apply IH, dispatch_inSync.
Qed.

End ComponentFacts.

Lemma gapCaption_shortfall (r : Results) :
  gapCaption r = "Annual Shortfall"%string <-> isShortfall r = true.
Proof.
  unfold gapCaption. destruct (isShortfall r); split; intros H;
    try reflexivity; discriminate.
Qed.

Lemma gapBoxClass_red (r : Results) :
  gapBoxClass r = "bg-white p-4 rounded-lg border border-red-200"%string
  <-> isShortfall r = true.
Proof.
  unfold gapBoxClass. destruct (isShortfall r); split; intros H;
    try reflexivity; discriminate.
Qed.

Lemma gapAmountClass_red (r : Results) :
  gapAmountClass r = "text-2xl font-bold text-red-600"%string
  <-> isShortfall r = true.
Proof.
  unfold gapAmountClass. destruct (isShortfall r); split; intros H;
    try reflexivity; discriminate.
Qed.

(** X4: before the first effect no panel is rendered; after it, and after
    any sequence of change events, the panel is rendered and shows the
    projection of the inputs the form holds at that moment.  Its caption is
    "Annual Shortfall", its border and amount are red and the suggestions
    box is rendered exactly when the desired income exceeds the unrounded
    income of those inputs; otherwise (a NaN gap included) the caption is
    "Annual Surplus", in green, without suggestions. *)
Theorem panel_follows_the_inputs
    (host : Runtime) (events : list ChangeEvent) :
  showsPanel initialState = false /\
  showsPanel (run events mount) = true /\
  exists r : Results,
    results (run events mount) = Some r /\
    r = project (inputs (run events mount)) /\
    showsSuggestions r = (0 <? gap (inputs (run events mount))) /\
    (gapCaption r = "Annual Shortfall"%string
     <-> (0 <? gap (inputs (run events mount))) = true) /\
    (gapCaption r = "Annual Surplus"%string
     <-> (0 <? gap (inputs (run events mount))) = false) /\
    (gapBoxClass r = "bg-white p-4 rounded-lg border border-red-200"%string
     <-> (0 <? gap (inputs (run events mount))) = true) /\
    (gapAmountClass r = "text-2xl font-bold text-red-600"%string
     <-> (0 <? gap (inputs (run events mount))) = true).
Proof.
  assert (Hs : inSync (run events mount)) by (apply run_inSync; reflexivity).
  unfold inSync in Hs. split; [reflexivity|].
  split; [unfold showsPanel; now rewrite Hs|].
  exists (project (inputs (run events mount))).
  split; [exact Hs|]. split; [reflexivity|]. split; [reflexivity|].
  split; [apply gapCaption_shortfall|].
  split; [|split; [apply gapBoxClass_red|apply gapAmountClass_red]].
  unfold gapCaption. cbn [project isShortfall].
  destruct (0 <? gap (inputs (run events mount))); split; intros H;
    try reflexivity; discriminate.
Qed.

(** X5: which results an edit can change.  An event named
    [lifeExpectancy] changes no result; one named [desiredIncome] changes
    neither the total savings nor the annual income; one named
    [includeStatePension] does not change the total savings. *)
Theorem edit_scope (host : Runtime) (e : ChangeEvent) (st : State) :
  (name e = "lifeExpectancy"%string ->
   results (dispatch e st) = results (calculateRetirement st)) /\
  (name e = "desiredIncome"%string ->
   option_map totalSavings (results (dispatch e st))
     = option_map totalSavings (results (calculateRetirement st)) /\
   option_map annualIncome (results (dispatch e st))
     = option_map annualIncome (results (calculateRetirement st))) /\
  (name e = "includeStatePension"%string ->
   option_map totalSavings (results (dispatch e st))
     = option_map totalSavings (results (calculateRetirement st))).
Proof.
  unfold dispatch, handleInputChange, setInputs.
  split; [|split]; intros Hn; rewrite Hn; repeat split.
Qed.

Lemma edit_scope_witness :
  (name liveTo120 = "lifeExpectancy"%string /\
   results (@dispatch referenceHost liveTo120 initialState)
     = results (@calculateRetirement referenceHost initialState)) /\
  (name desire50000 = "desiredIncome"%string /\
   option_map totalSavings (results (@dispatch referenceHost desire50000 initialState))
     = option_map totalSavings (results (@calculateRetirement referenceHost initialState))) /\
  (name untickPension = "includeStatePension"%string /\
   option_map totalSavings (results (@dispatch referenceHost untickPension initialState))
     = option_map totalSavings (results (@calculateRetirement referenceHost initialState))).
Proof.
  destruct (edit_scope referenceHost liveTo120 initialState) as (H1 & _ & _).
  destruct (edit_scope referenceHost desire50000 initialState) as (_ & H2 & _).
  destruct (edit_scope referenceHost untickPension initialState) as (_ & _ & H3).
  split; [split; [reflexivity|exact (H1 eq_refl)]|].
  split; [split; [reflexivity|exact (proj1 (H2 eq_refl))]|].
  split; [reflexivity|exact (H3 eq_refl)].
Defined.

Lemma dispatch_inputs (host : Runtime) (e : ChangeEvent) (st : State) :
  inputs (dispatch e st) = assignProperty (inputs st) (name e) (assigned e).
Proof. reflexivity. Qed.

(** X9: after any sequence of change events each property holds what the
    last event with its name assigned (read through ToNumber, or ToBoolean
    for the pension flag), and a property no event named holds what it held
    before; the order and the values of the other events do not matter. *)
Theorem last_edit_wins
    (host : Runtime) (events : list ChangeEvent) (st : State) (k : string) :
  numberField k (inputs (run events st))
    = match lastAssigned k events with
      | Some v => option_map (fun _ => ToNumber v) (numberField k (inputs st))
      | None => numberField k (inputs st)
      end /\
  includeStatePension (inputs (run events st))
    = match lastAssigned "includeStatePension" events with
      | Some v => ToBoolean v
      | None => includeStatePension (inputs st)
      end.
Proof.
  revert st. induction events as [|e events IH]; intros st.
  - split; reflexivity.
  - cbn [run fold_left lastAssigned].
    destruct (IH (dispatch e st)) as [Hn Hb]. unfold run in Hn, Hb.
    rewrite Hn, Hb, dispatch_inputs.
    rewrite numberField_assignProperty, includeStatePension_assignProperty.
    rewrite (String.eqb_sym k (name e)).
    split.
    + destruct (lastAssigned k events) as [v|];
        destruct (name e =? k)%string; try reflexivity;
        destruct (numberField k (inputs st)); reflexivity.
    + destruct (lastAssigned "includeStatePension" events) as [v|];
        destruct (name e =? "includeStatePension")%string; reflexivity.
Qed.

(** * The engine on degenerate inputs *)

(** ** NaN is absorbing *)

Lemma is_nan_eq (x : float) : is_nan x = true -> x = nan.
Proof.
  intros H%is_nan_SF. rewrite <- (SF2Prim_Prim2SF x), H. reflexivity.
Qed.

Lemma Prim2SF_nan : Prim2SF nan = S754_nan.
Proof. reflexivity. Qed.

Lemma add_nan_l (x : float) : nan + x = nan.
Proof. apply Prim2SF_inj. rewrite add_spec, Prim2SF_nan. reflexivity. Qed.

Lemma add_nan_r (x : float) : x + nan = nan.
Proof.
  apply Prim2SF_inj. rewrite add_spec, Prim2SF_nan.
  destruct (Prim2SF x); reflexivity.
Qed.

Lemma sub_nan_l (x : float) : nan - x = nan.
Proof. apply Prim2SF_inj. rewrite sub_spec, Prim2SF_nan. reflexivity. Qed.

Lemma sub_nan_r (x : float) : x - nan = nan.
Proof.
  apply Prim2SF_inj. rewrite sub_spec, Prim2SF_nan.
  destruct (Prim2SF x); reflexivity.
Qed.

Lemma mul_nan_l (x : float) : nan * x = nan.
Proof. apply Prim2SF_inj. rewrite mul_spec, Prim2SF_nan. reflexivity. Qed.

Lemma mul_nan_r (x : float) : x * nan = nan.
Proof.
  apply Prim2SF_inj. rewrite mul_spec, Prim2SF_nan.
  destruct (Prim2SF x); reflexivity.
Qed.

Lemma div_nan_l (x : float) : nan / x = nan.
Proof. apply Prim2SF_inj. rewrite div_spec, Prim2SF_nan. reflexivity. Qed.

Lemma div_nan_r (x : float) : x / nan = nan.
Proof.
  apply Prim2SF_inj. rewrite div_spec, Prim2SF_nan.
  destruct (Prim2SF x); reflexivity.
Qed.

Ltac nan_absorb :=
  repeat first
    [ rewrite add_nan_l | rewrite add_nan_r | rewrite sub_nan_l
    | rewrite sub_nan_r | rewrite mul_nan_l | rewrite mul_nan_r
    | rewrite div_nan_l | rewrite div_nan_r ].

(** A NaN total becomes a NaN in every currency field and a surplus. *)
Lemma nan_total_project (host : Runtime) (i : CalculatorInputs) :
  totalSavingsRaw i = nan ->
  project i = {| totalSavings := nan; annualIncome := nan;
                 shortfall := nan; isShortfall := false |}.
Proof.
  intros Ht. unfold project, gap, totalAnnualIncome, annualWithdrawal.
  rewrite Ht, mul_nan_l, add_nan_l, sub_nan_r. reflexivity.
Qed.

(** X6: nothing validates the inputs.  If the current savings, the monthly
    contribution, the expected return or the inflation rate is NaN (as
    [Number] of a non-numeric text is), then on every host the three
    currency fields of the result are NaN and [isShortfall] is false, so
    the panel shows "Annual Surplus" without suggestions. *)
Theorem nan_input_gives_nan_results (host : Runtime) (i : CalculatorInputs) :
  is_nan (currentSavings i) = true \/
  is_nan (monthlyContributions i) = true \/
  is_nan (expectedReturn i) = true \/
  is_nan (inflationRate i) = true ->
  project i = {| totalSavings := nan; annualIncome := nan;
                 shortfall := nan; isShortfall := false |} /\
  gapCaption (project i) = "Annual Surplus"%string /\
  showsSuggestions (project i) = false.
Proof.
  intros H.
  assert (Ht : totalSavingsRaw i = nan).
  { unfold totalSavingsRaw, futureSavings, futureContributions, annuityFactor,
      monthlyRate, realReturnRate.
    destruct H as [H|[H|[H|H]]]; apply is_nan_eq in H; rewrite H;
      nan_absorb; reflexivity. }
  rewrite (nan_total_project host i Ht). repeat split.
Qed.

(** ** Numbers without a minus sign *)

Lemma SFabs_unsigned (x : spec_float) : SFunsigned (SFabs x) = true.
Proof. destruct x; reflexivity. Qed.

Local Open Scope Z_scope.

Lemma SF2Z_positive_unsigned (y : spec_float) (n : Z) :
  SF2Z y = Some n -> 0 < n -> SFunsigned y = true.
Proof.
  destruct y as [s|s| |s m e]; try discriminate.
  - intros [= <-] Hn. lia.
  - cbn [SF2Z SFunsigned]. destruct s; [|reflexivity].
    assert (Hs : signed true m = - Zpos m) by reflexivity.
    destruct (0 <=? e) eqn:He.
    + intros Heq Hn. apply Z.leb_le in He.
      assert (Hv : n = signed true m * 2 ^ e) by congruence.
      rewrite Hs in Hv.
      pose proof (Z.pow_nonneg 2 e ltac:(lia)).
      assert (0 <= Zpos m * 2 ^ e) by (apply Z.mul_nonneg_nonneg; lia). lia.
    + destruct (Zpos m mod 2 ^ (- e) =? 0); [|discriminate].
      intros Heq Hn. apply Z.leb_gt in He.
      assert (Hv : n = signed true m / 2 ^ (- e)) by congruence.
      rewrite Hs in Hv.
      assert (0 < 2 ^ (- e)) by (apply Z.pow_pos_nonneg; lia).
      assert (- Zpos m / 2 ^ (- e) < 0)
        by (apply Z.div_lt_upper_bound; lia).
      lia.
Qed.

(** Rounding does not produce a minus sign. *)
Lemma SFround_unsigned (x : spec_float) :
  valid_binary x = true -> SFunsigned x = true -> SFunsigned (SFround x) = true.
Proof.
  intros Hv Hu. destruct x as [s|s| |s m e]; try exact Hu.
  cbn [SFround]. destruct (0 <=? e) eqn:He; [exact Hu|].
  apply Z.leb_gt in He. destruct s; [discriminate Hu|].
  assert (Hd : 2 <= 2 ^ (- e)).
  { change 2 with (2 ^ 1) at 1. apply Z.pow_le_mono_r; lia. }
  pose proof (valid_mantissa_bound false m e Hv) as Hm.
  rewrite <- (signed_abs false m) in Hm.
  destruct (round_quotient_bounds (signed false m) (2 ^ (- e)) Hm Hd) as [Hr _].
  destruct (binary_normalize_integer _ false Hr) as [_ Hz].
  assert (Hq : 0 <= (2 * signed false m + 2 ^ (- e)) / (2 * 2 ^ (- e))).
  { apply Z.div_pos; unfold signed, cond_Zopp; lia. }
  destruct ((2 * signed false m + 2 ^ (- e)) / (2 * 2 ^ (- e))) as [|p|p] eqn:Hp;
    [reflexivity| |lia].
  eapply SF2Z_positive_unsigned; [exact Hz|lia].
Qed.

Local Close Scope Z_scope.

Lemma unsigned_not_negative (x : float) :
  SFunsigned (Prim2SF x) = true -> (x <? 0) = false /\ x <> neg_zero.
Proof.
  intros Hu. split.
  - rewrite ltb_spec, Prim2SF_0.
    destruct (Prim2SF x) as [s|s| |s m e]; try reflexivity;
      destruct s; try discriminate Hu; reflexivity.
  - intros ->. discriminate Hu.
Qed.

(** X7: the amount reported for the gap never carries a minus sign: for
    every input record and host it is NaN or a number that is not below
    zero, and it is not [-0] either. *)
Theorem gap_amount_is_never_negative (host : Runtime) (i : CalculatorInputs) :
  (shortfall (project i) <? 0) = false /\
  shortfall (project i) <> neg_zero.
Proof.
  apply unsigned_not_negative. cbn [project shortfall].
  rewrite Prim2SF_Math_round. apply SFround_unsigned.
  - apply Prim2SF_valid.
  - unfold Math_abs. rewrite abs_spec. apply SFabs_unsigned.
Qed.

(** ** Multiplying by one *)

Local Open Scope Z_scope.

Lemma shr_52 (m : positive) :
  iter_pos shr_1 52
    {| shr_m := Zpos (4503599627370496 * m); shr_r := false; shr_s := false |}
  = {| shr_m := Zpos m; shr_r := false; shr_s := false |}.
Proof. reflexivity. Qed.

Lemma Zpos_mul_pow52 (m : positive) :
  Zpos (m * 4503599627370496) = Zpos m * 2 ^ 52.
Proof. rewrite Pos2Z.inj_mul. reflexivity. Qed.

(** The product of a mantissa with [2^52] is shifted back exactly. *)
Lemma SFmul_one_r (s : bool) (m : positive) (e : Z) :
  valid_binary (S754_finite s m e) = true ->
  SF64mul (S754_finite s m e) (S754_finite false 4503599627370496 (-52))
  = S754_finite s m e.
Proof.
  cbn [valid_binary]. unfold bounded, canonical_mantissa.
  intros [Hc He]%andb_prop. apply Z.eqb_eq in Hc.
  unfold SF64mul. cbn [SFmul]. rewrite xorb_false_r.
  unfold binary_round_aux, shr_fexp. cbn [Zdigits2 shr_record_of_loc].
  assert (Hd : Zpos (digits2_pos (m * 4503599627370496)) + (e + -52)
               = Zpos (digits2_pos m) + e).
  { rewrite !Zdigits2_log2, Zpos_mul_pow52, Z.log2_mul_pow2; lia. }
  rewrite Hd, Hc.
  replace (e - (e + -52)) with 52 by lia.
  cbn [shr]. rewrite Pos.mul_comm, shr_52.
  cbn [shr_m loc_of_shr_record round_nearest_even Zdigits2].
  replace (e + -52 + 52) with e by lia.
  rewrite Hc, Z.sub_diag. cbn [shr shr_m]. rewrite He. reflexivity.
Qed.

Local Close Scope Z_scope.

Lemma mul_one_r (x : float) : x * 1 = x.
Proof.
  apply Prim2SF_inj. rewrite mul_spec, Prim2SF_1.
  pose proof (Prim2SF_valid x) as Hv.
  destruct (Prim2SF x) as [s|s| |s m e]; try reflexivity.
  - destruct s; reflexivity.
  - destruct s; reflexivity.
  - now apply SFmul_one_r.
Qed.

(** ** Zeros in products, quotients and sums *)

Lemma SFdiv_zero_l (x y : spec_float) :
  SFzero x = true -> SFnonfinite y = false -> SFzero y = false ->
  SFzero (SF64div x y) = true.
Proof.
  destruct x as [s|s| |s m e], y as [t|t| |t n f]; intros Hx Hy Hz;
    try discriminate Hx; try discriminate Hy; try discriminate Hz.
  reflexivity.
Qed.

Lemma SFmul_zero_r (x y : spec_float) :
  SFnonfinite x = false -> SFzero y = true -> SFzero (SF64mul x y) = true.
Proof.
  destruct x as [s|s| |s m e], y as [t|t| |t n f]; intros Hx Hy;
    try discriminate Hx; try discriminate Hy; reflexivity.
Qed.

Lemma SFadd_zero_r_nonzero (x y : spec_float) :
  SFzero y = true -> SFzero x = false -> SF64add x y = x.
Proof.
  destruct x as [s|s| |s m e], y as [t|t| |t n f]; intros Hy Hx;
    try discriminate Hx; try discriminate Hy; reflexivity.
Qed.

Lemma div_zero_l (x y : float) :
  is_zero x = true -> is_finite y = true -> is_zero y = false ->
  is_zero (x / y) = true.
Proof.
  rewrite !is_zero_SFzero, div_spec. intros Hx Hy%finite_SFnonfinite Hz.
  now apply SFdiv_zero_l.
Qed.

Lemma mul_finite_zero (x y : float) :
  is_finite x = true -> is_zero y = true -> is_zero (x * y) = true.
Proof.
  rewrite !is_zero_SFzero, mul_spec. intros Hx%finite_SFnonfinite Hy.
  now apply SFmul_zero_r.
Qed.

Lemma add_zero_r_nonzero (x y : float) :
  is_zero y = true -> is_zero x = false -> x + y = x.
Proof.
  rewrite !is_zero_SFzero. intros Hy Hx. apply Prim2SF_inj.
  rewrite add_spec. now apply SFadd_zero_r_nonzero.
Qed.

(** X8: retiring at once.  When the retirement age equals the (finite)
    current age, on every host [Math.pow] is called with exponent zero and
    returns 1: the future value of the savings is the current savings
    exactly, and with a finite non-zero monthly rate and a finite monthly
    contribution the contributions add a zero.  The projected total is then
    the current savings, reported rounded. *)
Theorem retiring_at_once_keeps_the_savings
    (host : Runtime) (i : CalculatorInputs) :
  (retirementAge i =? currentAge i) = true ->
  is_finite (retirementAge i) = true ->
  is_finite (monthlyRate i) = true ->
  is_zero (monthlyRate i) = false ->
  is_finite (monthlyContributions i) = true ->
  futureSavings i = currentSavings i /\
  is_zero (futureContributions i) = true /\
  (is_zero (currentSavings i) = false ->
   totalSavingsRaw i = currentSavings i /\
   totalSavings (project i) = Math_round (currentSavings i)) /\
  (is_zero (currentSavings i) = true ->
   is_zero (totalSavings (project i)) = true).
Proof.
  intros Ha Hf Hr Hz Hc.
  destruct (sub_equal_finite _ _ Ha Hf) as (Hy & _).
  fold (yearsToInvest i) in Hy.
  assert (Hm : is_zero (months i) = true)
    by (unfold months; apply mul_zero_finite; [exact Hy|reflexivity]).
  assert (Hs : futureSavings i = currentSavings i).
  { unfold futureSavings.
    rewrite Math_pow_exponent_zero by exact Hy. apply mul_one_r. }
  assert (Hk : is_zero (futureContributions i) = true).
  { unfold futureContributions, annuityFactor.
    rewrite Math_pow_exponent_zero by exact Hm.
    apply mul_finite_zero; [exact Hc|].
    apply div_zero_l; [reflexivity|exact Hr|exact Hz]. }
  split; [exact Hs|]. split; [exact Hk|]. split.
  - intros Hn.
    assert (Ht : totalSavingsRaw i = currentSavings i).
    { unfold totalSavingsRaw. rewrite Hs. now apply add_zero_r_nonzero. }
    split; [exact Ht|]. cbn [project totalSavings]. now rewrite Ht.
  - intros Hn. cbn [project totalSavings]. apply Math_round_zero.
    unfold totalSavingsRaw. rewrite Hs. now apply add_zero_zero.
Qed.

Lemma retiring_at_once_keeps_the_savings_witness :
  (retirementAge retireNow =? currentAge retireNow) = true /\
  is_finite (retirementAge retireNow) = true /\
  is_finite (monthlyRate retireNow) = true /\
  is_zero (monthlyRate retireNow) = false /\
  is_finite (monthlyContributions retireNow) = true /\
  is_zero (currentSavings retireNow) = false /\
  @totalSavingsRaw referenceHost retireNow = 50000 /\
  totalSavings (@project referenceHost retireNow) = 50000.
Proof.
  assert (H1 : (retirementAge retireNow =? currentAge retireNow) = true)
    by reflexivity.
  assert (H2 : is_finite (retirementAge retireNow) = true) by reflexivity.
  assert (H3 : is_finite (monthlyRate retireNow) = true)
    by (vm_compute; reflexivity).
  assert (H4 : is_zero (monthlyRate retireNow) = false)
    by (vm_compute; reflexivity).
  assert (H5 : is_finite (monthlyContributions retireNow) = true) by reflexivity.
  assert (H6 : is_zero (currentSavings retireNow) = false) by reflexivity.
  destruct (retiring_at_once_keeps_the_savings referenceHost retireNow
              H1 H2 H3 H4 H5) as (_ & _ & Hn & _).
  destruct (Hn H6) as [Ht Hr].
  split; [exact H1|]. split; [exact H2|]. split; [exact H3|].
  split; [exact H4|]. split; [exact H5|]. split; [exact H6|].
  split; [exact Ht|]. rewrite Hr. vm_compute. reflexivity.
Defined.

Lemma nan_input_gives_nan_results_witness :
  is_nan (expectedReturn returnNotANumber) = true /\
  @project referenceHost returnNotANumber
    = {| totalSavings := nan; annualIncome := nan;
         shortfall := nan; isShortfall := false |}.
Proof.
  assert (H : is_nan (expectedReturn returnNotANumber) = true) by reflexivity.
  split; [exact H|].
  apply (nan_input_gives_nan_results referenceHost returnNotANumber).
  right. right. left. exact H.
Defined.
